(** * Autoscan: the plex target and the daemon's driver loop

    A shallow embedding of [targets/plex/plex.go] and of the daemon's [main]
    (configuration, startup, target initialisation and the processor driver
    loop), with the properties the specification states about them.

    Go strings are byte strings: they are modelled by [string] (a list of
    [ascii] bytes).  Go's [int] is taken to be 64 bits wide.  A Go [error]
    value of [nil] is [None]. *)

From Stdlib Require Import ZArith Lia Bool Ascii.
From stdpp Require Import numbers strings list gmap.

Local Open Scope Z_scope.

(* ================================================================== *)
(** * Package [strings] *)
(* ================================================================== *)

Module strings.

(** [len(s)] *)
Definition len (s : string) : Z := Z.of_nat (String.length s).

Fixpoint drop (n : nat) (s : string) : string :=
  match n, s with
  | O, _ => s
  | S _, EmptyString => EmptyString
  | S n', String _ s' => drop n' s'
  end.

Fixpoint take (n : nat) (s : string) : string :=
  match n, s with
  | O, _ => EmptyString
  | S _, EmptyString => EmptyString
  | S n', String c s' => String c (take n' s')
  end.

(** [strings.HasPrefix(s, prefix)] *)
Definition HasPrefix (s prefix : string) : bool := String.prefix prefix s.

(** [strings.HasSuffix(s, suffix)]:
    [len(s) >= len(suffix) && s[len(s)-len(suffix):] == suffix] *)
Definition HasSuffix (s suffix : string) : bool :=
  (String.length suffix <=? String.length s)%nat
  && String.eqb (drop (String.length s - String.length suffix) s) suffix.

(** [strings.TrimPrefix(s, prefix)] *)
Definition TrimPrefix (s prefix : string) : string :=
  if HasPrefix s prefix then drop (String.length prefix) s else s.

(** [strings.TrimSuffix(s, suffix)] *)
Definition TrimSuffix (s suffix : string) : string :=
  if HasSuffix s suffix
  then take (String.length s - String.length suffix) s
  else s.

(** [strings.Contains(s, substr)] *)
Fixpoint Contains (s substr : string) : bool :=
  String.prefix substr s
  || match s with
     | EmptyString => false
     | String _ s' => Contains s' substr
     end.

(** [strings.LastIndex(s, substr)]: the byte index of the last instance of
    [substr] in [s], or [-1].  The scan keeps the last position at which
    [substr] is a prefix of the remainder. *)
Fixpoint last_index_from (s substr : string) (i best : Z) : Z :=
  let best' := if String.prefix substr s then i else best in
  match s with
  | EmptyString => best'
  | String _ s' => last_index_from s' substr (i + 1) best'
  end.

Definition LastIndex (s substr : string) : Z := last_index_from s substr 0 (-1).

(** [strings.Split(s, sep)] for a non-empty [sep]: the substrings between
    the leftmost non-overlapping instances of [sep].  [cur] holds the bytes
    of the current part in reverse; [skip] counts the bytes of a separator
    that are still to be passed over. *)
Fixpoint split_go (sep : string) (skip : nat) (cur s : string) : list string :=
  match s with
  | EmptyString => [String.rev cur]
  | String c s' =>
      match skip with
      | S k => split_go sep k cur s'
      | O =>
          if String.prefix sep s
          then String.rev cur :: split_go sep (String.length sep - 1) EmptyString s'
          else split_go sep O (String c cur) s'
      end
  end.

Definition Split (s sep : string) : list string := split_go sep O EmptyString s.

(** The number of occurrences of the byte [c] in [s]. *)
Fixpoint count_byte (c : ascii) (s : string) : nat :=
  match s with
  | EmptyString => O
  | String d s' => ((if Ascii.eqb c d then 1 else 0) + count_byte c s')%nat
  end.

End strings.

(* ================================================================== *)
(** * Package [strconv] *)
(* ================================================================== *)

Module strconv.

(** The two causes a [*NumError] carries. *)
Inductive NumErr := ErrSyntax | ErrRange.

Definition maxUint64 : Z := 2 ^ 64 - 1.

(** [ch - '0'] on a byte, as an unsigned 8-bit subtraction. *)
Definition byte_minus_0 (c : ascii) : Z :=
  (Z.of_nat (nat_of_ascii c) - 48) mod 256.

(** The loop of [Atoi]'s fast path: [ch -= '0'; if ch > 9 { syntax error };
    n = n*10 + int(ch)]. *)
Fixpoint fast_digits (s : string) (n : Z) : option Z :=
  match s with
  | EmptyString => Some n
  | String c s' =>
      let ch := byte_minus_0 c in
      if 9 <? ch then None else fast_digits s' (n * 10 + ch)
  end.

(** The decimal loop of [ParseUint(s, 10, 64)]: a byte that is no digit is a
    syntax error (value 0); a value that passes [maxUint64] is a range error
    (value [maxUint64]) reported as soon as it is seen, whatever follows. *)
Fixpoint uint_digits (s : string) (n : Z) : Z * option NumErr :=
  match s with
  | EmptyString => (n, None)
  | String c s' =>
      let d := Z.of_nat (nat_of_ascii c) - 48 in
      if (d <? 0) || (9 <? d) then (0, Some ErrSyntax)
      else if maxUint64 / 10 + 1 <=? n then (maxUint64, Some ErrRange)
      else
        let n10 := n * 10 in
        let n1 := (n10 + d) mod 2 ^ 64 in
        if (n1 <? n10) || (maxUint64 <? n1) then (maxUint64, Some ErrRange)
        else uint_digits s' n1
  end.

Definition ParseUint (s : string) : Z * option NumErr :=
  match s with
  | EmptyString => (0, Some ErrSyntax)
  | _ => uint_digits s 0
  end.

(** [ParseInt(s, 10, 0)] with a 64-bit [int]. *)
Definition ParseInt (s : string) : Z * option NumErr :=
  match s with
  | EmptyString => (0, Some ErrSyntax)
  | String c s' =>
      let neg := Ascii.eqb c "-" in
      let body := if Ascii.eqb c "+" || neg then s' else s in
      let '(un, err) := ParseUint body in
      match err with
      | Some ErrSyntax => (0, Some ErrSyntax)
      | _ =>
          let cutoff := 2 ^ 63 in
          if negb neg && (cutoff <=? un) then (cutoff - 1, Some ErrRange)
          else if neg && (cutoff <? un) then (- cutoff, Some ErrRange)
          else (if neg then - un else un, None)
      end
  end.

(** [strconv.Atoi(s)]: the fast path for [0 < len(s) < 19], [ParseInt]
    otherwise. *)
Definition Atoi (s : string) : Z * option NumErr :=
  let sLen := String.length s in
  if (0 <? sLen)%nat && (sLen <? 19)%nat then
    match s with
    | EmptyString => (0, Some ErrSyntax)
    | String c s' =>
        let signed := Ascii.eqb c "-" || Ascii.eqb c "+" in
        let body := if signed then s' else s in
        if signed && (String.length body <? 1)%nat then (0, Some ErrSyntax)
        else
          match fast_digits body 0 with
          | None => (0, Some ErrSyntax)
          | Some n => (if Ascii.eqb c "-" then - n else n, None)
          end
    end
  else ParseInt s.

End strconv.

(* ================================================================== *)
(** * Package [autoscan]: sentinel errors, scans, rewriters *)
(* ================================================================== *)

Module autoscan.

(** The sentinel errors of the package that the sources match against. *)
Inductive sentinel :=
| ErrNoScans | ErrAnchorUnavailable | ErrTargetUnavailable | ErrFatal.

Global Instance sentinel_eq_dec : EqDecision sentinel.
Proof. solve_decision. Defined.

(** The row handed from the processor to a target.  Only [Folder] is read
    by the sources at hand. *)
Record Scan := mkScan {
  Folder : string;
  File : string;
  Priority : Z;
  Retries : Z;
}.

(** [type Rewriter func(string) string] *)
Definition Rewriter := string → string.

(** [autoscan.Rewrite], an element of a [rewrite:] list. *)
Record Rewrite := mkRewrite { From_ : string; To : string }.

(** Modelled from the spec: [autoscan.NewRewriter] is not among the sources.
    "A rewriter is a list of (from-prefix, to-prefix) pairs"; "if a trigger
    delivers a path that matches no rewrite, the path is stored unchanged".
    The first rule whose [from] is a prefix of the path replaces that prefix
    by [to]. *)
Fixpoint prefix_rewriter (rules : list Rewrite) : Rewriter :=
  fun path =>
    match rules with
    | [] => path
    | r :: rest =>
        if strings.HasPrefix path (From_ r)
        then To r +:+ strings.drop (String.length (From_ r)) path
        else prefix_rewriter rest path
    end.

End autoscan.

(** An error value: one of the sentinels, an error with a message of its
    own ([errors.New], [fmt.Errorf] without [%w], an error of a library),
    [fmt.Errorf] with one [%w] operand, which wraps that operand, or an error
    that stands for two at once ([errors.Join], [fmt.Errorf] with two [%w]
    operands, a type whose [Is] method answers for a further error). *)
Inductive error :=
| Sentinel (s : autoscan.sentinel)
| Opaque (text : string)
| Errorf (msg : string) (wrapped : error)
| Join (e1 e2 : error).

Coercion Sentinel : autoscan.sentinel >-> error.

Module errors.

(** [errors.Is(err, target)] for a sentinel [target]: follow [Unwrap] until
    a value equal to [target] is found, through every error wrapped.  One
    error may so match several sentinels. *)
Fixpoint Is (err : error) (target : autoscan.sentinel) : bool :=
  match err with
  | Sentinel s => bool_decide (s = target)
  | Opaque _ => false
  | Errorf _ e => Is e target
  | Join e1 e2 => Is e1 target || Is e2 target
  end.

End errors.

(* ================================================================== *)
(** * Logging (zerolog) and the observable events of a run *)
(* ================================================================== *)

Module zerolog.

Inductive Level :=
| TraceLevel | DebugLevel | InfoLevel | WarnLevel | ErrorLevel | FatalLevel.

(** The fields attached to a log event by [Str], [Strs], [Int], [Err],
    [Stringer] and [Interface]. *)
Inductive field :=
| Str (key val : string)
| Strs (key : string) (vals : list string)
| Int (key : string) (val : Z)
| Err (e : error)
| Stringer (key : string) (ns : Z)
| Interface (key : string).

End zerolog.

(** What a run does that can be seen from outside.  A [Log] event records the
    call made on a logger (level, fields, message); whether the logger's own
    level lets the line through is decided by [autoscan.GetLogger], which is
    not among the sources. *)
Inductive event :=
| Log (lvl : zerolog.Level) (fields : list zerolog.field) (msg : string)
| Println (args : list string)
| HTTPPost (url body : string)
| APIVersion (url : string)
| APILibraries (url : string)
| APIScan (url path : string) (libID : Z)
| Call (fn : string)
| CheckAvailability (res : option error)
| Process (res : option error)
| Sleep (ns : Z)
| Go (what : string)
| Handle (pattern : string)
| Add (scans : list autoscan.Scan) (res : option error).

(* ================================================================== *)
(** * Execution: world passing, traces, panics and exits *)
(* ================================================================== *)

Module go.

Inductive panic_value :=
| PanicError (e : error)              (* [panic(err)] *)
| SliceBounds (low : Z)               (* slice bounds out of range [low:] *)
| MultipleRegistrations (pattern : string).  (* [http.ServeMux.Handle] *)

(** How a piece of code ends: it returns a value, it panics, it ends the
    process ([os.Exit]), or it blocks for ever ([select {}]). *)
Inductive outcome (A : Type) :=
| Done (a : A)
| Panicked (v : panic_value)
| Exited (code : Z)
| Blocked.
Arguments Done {A} a.
Arguments Panicked {A} v.
Arguments Exited {A} code.
Arguments Blocked {A}.

Section Monad.
Context {W : Type}.

(** A computation over the state [W] of everything outside the program (the
    Plex server, the rclone endpoints, the file system, the scan store). *)
Definition M (A : Type) : Type := W → outcome A * W * list event.

Definition ret {A} (a : A) : M A := fun w => (Done a, w, []).

Definition bind {A B} (m : M A) (k : A → M B) : M B :=
  fun w =>
    match m w with
    | (Done a, w1, t1) =>
        let '(o, w2, t2) := k a w1 in (o, w2, t1 ++ t2)
    | (Panicked v, w1, t1) => (Panicked v, w1, t1)
    | (Exited c, w1, t1) => (Exited c, w1, t1)
    | (Blocked, w1, t1) => (Blocked, w1, t1)
    end.

Definition emit (e : event) : M unit := fun w => (Done tt, w, [e]).
Definition panic {A} (v : panic_value) : M A := fun w => (Panicked v, w, []).
Definition exit {A} (code : Z) : M A := fun w => (Exited code, w, []).
Definition block {A} : M A := fun w => (Blocked, w, []).

(** A call into the outside world, recorded by the event [e]. *)
Definition call {A} (e : event) (f : W → A * W) : M A :=
  fun w => let '(a, w') := f w in (Done a, w', [e]).

(** A call whose event records the answer too. *)
Definition call_with {A} (e : A → event) (f : W → A * W) : M A :=
  fun w => let '(a, w') := f w in (Done a, w', [e a]).

Definition result {A} (r : outcome A * W * list event) : outcome A := r.1.1.
Definition world {A} (r : outcome A * W * list event) : W := r.1.2.
Definition trace {A} (r : outcome A * W * list event) : list event := r.2.

End Monad.

Arguments M : clear implicits.

(** [s[low:]] on a string: a panic unless [0 <= low <= len(s)]. *)
Definition slice_from {W} (s : string) (low : Z) : M W string :=
  if (low <? 0) || (strings.len s <? low)
  then panic (SliceBounds low)
  else ret (strings.drop (Z.to_nat low) s).

(** [log.<level>()....Msg(msg)] *)
Definition log {W} (lvl : zerolog.Level) (fields : list zerolog.field) (msg : string)
  : M W unit := emit (Log lvl fields msg).

(** [log.Fatal()....Msg(msg)]: the line is logged and the process ends with
    [os.Exit(1)]. *)
Definition log_Fatal {W A} (fields : list zerolog.field) (msg : string) : M W A :=
  bind (emit (Log zerolog.FatalLevel fields msg)) (fun _ => exit 1).

(** Every event of every run of [m] satisfies [P]. *)
Definition emits_only {W A} (P : event → Prop) (m : M W A) : Prop :=
  ∀ w, Forall P (trace (m w)).

(** [for _, x := range l { body }] *)
Fixpoint for_each {W A} (l : list A) (body : A → M W unit) : M W unit :=
  match l with
  | [] => ret tt
  | x :: l' => bind (body x) (fun _ => for_each l' body)
  end.

(** A [range] loop that updates a local variable of type [S]. *)
Fixpoint fold_each {W A S} (l : list A) (s : S) (body : S → A → M W S) : M W S :=
  match l with
  | [] => ret s
  | x :: l' => bind (body s x) (fun s' => fold_each l' s' body)
  end.

End go.

Declare Scope go_scope.
Delimit Scope go_scope with go.
Notation "x <- m ;; k" := (go.bind m (fun x => k))
  (at level 100, m at next level, right associativity) : go_scope.
Notation "m ;; k" := (go.bind m (fun _ => k))
  (at level 100, right associativity) : go_scope.
Local Open Scope go_scope.

(* ================================================================== *)
(** * Package [plex]: [targets/plex/plex.go] *)
(* ================================================================== *)

Module plex.

Record Config := mkConfig {
  URL : string;
  Token : string;
  Rewrite : list autoscan.Rewrite;
  Verbosity : string;
}.

(** A library section of the Plex server.  The type is declared beside the
    API client; these are the fields [plex.go] reads. *)
Record library := mkLibrary {
  ID : Z;
  Name : string;
  Path : string;
}.

(** [newAPIClient(c.URL, c.Token, l)] *)
Record apiClient := newAPIClient {
  baseURL : string;
  apiToken : string;
}.

Record target := mkTarget {
  url : string;
  token : string;
  libraries : list library;
  rewrite : autoscan.Rewriter;
  api : apiClient;
}.

(** The answer of [http.Client.Do] as [rcrefresh] uses it: the status line,
    the headers as [fmt.Println] shows them, and the body as
    [ioutil.ReadAll] returns it (its error is dropped by the source). *)
Record Response := mkResponse {
  Status : string;
  Header : string;
  Body : string;
}.

(** [type rclonerc map[string]interface{}]; every value stored is a string. *)
Abbreviation rclonerc := (gmap string string).

(** What [plex.go] calls and the sources do not hold: the API client's
    methods, the HTTP client, [json.Marshal] and [autoscan.NewRewriter]. *)
Class Runtime (W : Type) := {
  NewRewriter : list autoscan.Rewrite → autoscan.Rewriter * option error;
  api_Version : apiClient → W → (string * option error) * W;
  api_Libraries : apiClient → W → (list library * option error) * W;
  api_Scan : apiClient → string → Z → W → option error * W;
  json_Marshal : rclonerc → string;
  http_Do : string → string → W → (Response + error) * W;
}.

(** [isSupportedVersion] *)
Definition isSupportedVersion (version : string) : bool :=
  match strings.Split version "." with
  | major_s :: minor_s :: _ =>
      let major := (strconv.Atoi major_s).1 in
      let minor := (strconv.Atoi minor_s).1 in
      (2 <=? major) || ((major =? 1) && (20 <=? minor))
  | _ => false                       (* [len(parts) < 2] *)
  end.

(** A version the daemon does not support: its major part reads below 1, or
    as 1 with a minor part that reads below 20; a version of fewer than two
    parts has neither part. *)
Definition unsupported (version : string) : bool :=
  match strings.Split version "." with
  | major_s :: minor_s :: _ =>
      let major := (strconv.Atoi major_s).1 in
      let minor := (strconv.Atoi minor_s).1 in
      (major <? 1) || ((major =? 1) && (minor <? 20))
  | _ => true
  end.

(** A numeral as [Atoi] reads one: an optional sign and one digit or more. *)
Definition is_digit (c : ascii) : bool :=
  let n := nat_of_ascii c in (48 <=? n)%nat && (n <=? 57)%nat.

Fixpoint all_digits (s : string) : bool :=
  match s with
  | EmptyString => true
  | String c s' => is_digit c && all_digits s'
  end.

Definition numeric (s : string) : bool :=
  match s with
  | EmptyString => false
  | String c s' =>
      if Ascii.eqb c "-" || Ascii.eqb c "+"
      then (0 <? String.length s')%nat && all_digits s'
      else all_digits s
  end.

(** A malformed version string: fewer than two dot-separated parts, or a
    major or minor part that is no numeral. *)
Definition malformed (version : string) : bool :=
  match strings.Split version "." with
  | major_s :: minor_s :: _ => negb (numeric major_s) || negb (numeric minor_s)
  | _ => true
  end.

Section Target.
Context {W : Type} {rt : Runtime W}.

(** [New] *)
Definition New (c : Config) : go.M W (option target * option error) :=
  match NewRewriter (Rewrite c) with
  | (_, Some err) => go.ret (None, Some err)
  | (rewriter, None) =>
      let api := newAPIClient (URL c) (Token c) in
      r <- go.call (APIVersion (URL c)) (api_Version api) ;;
      match r with
      | (_, Some err) => go.ret (None, Some err)
      | (version, None) =>
          go.log zerolog.DebugLevel [] ("Plex version: " +:+ version) ;;
          if negb (isSupportedVersion version) then
            go.ret (None,
                    Some (Errorf ("plex running unsupported version " +:+ version +:+ ": ")
                                 autoscan.ErrFatal))
          else
            r <- go.call (APILibraries (URL c)) (api_Libraries api) ;;
            match r with
            | (_, Some err) => go.ret (None, Some err)
            | (libraries, None) =>
                go.log zerolog.DebugLevel [zerolog.Interface "libraries"]
                       "Retrieved libraries" ;;
                go.ret (Some {| url := URL c; token := Token c;
                                libraries := libraries;
                                rewrite := rewriter; api := api |},
                        None)
            end
      end
  end.

(** [target.Available] *)
Definition Available (t : target) : go.M W (option error) :=
  r <- go.call (APIVersion (baseURL (api t))) (api_Version (api t)) ;;
  go.ret r.2.

(** [rcrefresh].  [http.NewRequest] cannot fail here: the method is ["POST"]
    and both URLs passed are constants that parse. *)
Definition rcrefresh (Data : rclonerc) (url : string) : go.M W string :=
  let jsonData := json_Marshal Data in
  go.emit (Println ["Json String"; jsonData]) ;;
  r <- go.call (HTTPPost url jsonData) (http_Do url jsonData) ;;
  match r with
  | inr err => go.panic (go.PanicError err)
  | inl resp =>
      go.emit (Println ["response Status:"; Status resp]) ;;
      go.emit (Println ["response Headers:"; Header resp]) ;;
      let bodystring := Body resp in
      go.emit (Println ["response Body:"; bodystring]) ;;
      go.ret bodystring
  end.

(** [target.getScanLibrary] *)
Definition getScanLibrary (t : target) (folder : string)
  : list library * option error :=
  let libraries := filter (λ l, strings.HasPrefix folder (Path l) = true) (libraries t) in
  if (length libraries =? 0)%nat
  then ([], Some (Opaque (folder +:+ ": failed determining libraries")))
  else (libraries, None).

(** The loop [for _, lib := range libs] that ends [target.Scan]. *)
Fixpoint send_scan_requests (t : target) (scanFolder : string) (libs : list library)
  : go.M W (option error) :=
  match libs with
  | [] => go.ret None
  | lib :: libs' =>
      let l := [zerolog.Str "path" scanFolder; zerolog.Str "library" (Name lib)] in
      go.log zerolog.TraceLevel l "Sending scan request" ;;
      err <- go.call (APIScan (baseURL (api t)) scanFolder (ID lib))
                     (api_Scan (api t) scanFolder (ID lib)) ;;
      match err with
      | Some e => go.ret (Some e)
      | None =>
          go.log zerolog.InfoLevel l "Scan moved to target" ;;
          send_scan_requests t scanFolder libs'
      end
  end.

Definition refresh_url : string := "http://192.168.1.172:5570/vfs%2Frefresh".
Definition refresh_url2 : string := "http://192.168.1.15:5572/vfs%2Frefresh".

(** The calls to the two rclone endpoints in the middle of [target.Scan]. *)
Definition refresh (scanFolder : string) : go.M W unit :=
  let url := refresh_url in
  let url2 := refresh_url2 in
  let s := strings.TrimPrefix scanFolder "/mnt/unionfs/Media" in
  go.emit (Println ["Trimmed String:"; s]) ;;
  base_dir <- go.slice_from s (strings.LastIndex s "/") ;;
  let base_dir := strings.TrimSuffix s base_dir in
  go.emit (Println ["Base Dir Trim:"; base_dir]) ;;
  let firstrequest : rclonerc := {[ "recursive" := "true"; "dir" := s ]} in
  resp <- rcrefresh firstrequest url ;;
  rcrefresh firstrequest url2 ;;
  if strings.Contains resp "file does not exist" then
    let secondrequest : rclonerc := {[ "recursive" := "false"; "dir" := base_dir ]} in
    resp2 <- rcrefresh secondrequest url ;;
    rcrefresh secondrequest url2 ;;
    if strings.Contains resp2 "OK" then
      go.emit (Println ["Third request var s:"; s]) ;;
      let thirdrequest : rclonerc := {[ "recursive" := "true"; "dir" := s ]} in
      rcrefresh thirdrequest url ;;
      rcrefresh thirdrequest url2 ;;
      go.ret tt
    else
      base_dirtmp <- go.slice_from base_dir (strings.LastIndex base_dir "/") ;;
      let new_base_dir := strings.TrimSuffix base_dir base_dirtmp in
      go.emit (Println ["Fourth request Base Dir Trim:"; new_base_dir]) ;;
      let fourthrequest : rclonerc := {[ "recursive" := "false"; "dir" := new_base_dir ]} in
      rcrefresh fourthrequest url ;;
      rcrefresh fourthrequest url2 ;;
      go.ret tt
  else go.ret tt.

(** [target.Scan] *)
Definition Scan (t : target) (scan : autoscan.Scan) : go.M W (option error) :=
  let scanFolder := rewrite t (autoscan.Folder scan) in
  match getScanLibrary t scanFolder with
  | (_, Some err) =>
      go.log zerolog.WarnLevel [zerolog.Err err] "No target libraries found" ;;
      go.ret None
  | (libs, None) =>
      refresh scanFolder ;;
      send_scan_requests t scanFolder libs
  end.

End Target.

End plex.

(* ================================================================== *)
(** * Package [yaml] (gopkg.in/yaml.v2): unmarshalling into structs *)
(* ================================================================== *)

Module yaml.

(** A parsed document as the decoder walks it, with every alias replaced by
    the node it stands for and no explicit tags.  A scalar is [implicit] when
    it is written plain, not quoted.  The children of a mapping are its keys
    with their values, in the order of the file. *)
#[local] Unset Elimination Schemes.
Inductive node :=
| Scalar (implicit : bool) (value : string)
| Sequence (items : list node)
| Mapping (children : list (node * node)).
#[local] Set Elimination Schemes.

(** What unmarshalling a node into a value gives: the value as it is left
    and the type errors recorded on the way ([d.terrors], here without their
    line numbers), or a failure ([failf]: a panic, which [Decode] recovers
    and returns as its error). *)
Inductive result (T : Type) :=
| Ok (out : T) (terrors : list string)
| Fail (msg : string).
Arguments Ok {T} out terrors.
Arguments Fail {T} msg.

(** A decoder for values of type [T]: [d.unmarshal(n, out)]. *)
Abbreviation decoder T := (node → T → result T)%type.

(** One step after another: the type errors add up, a failure ends all. *)
Definition then_ {T U} (r : result T) (k : T → result U) : result U :=
  match r with
  | Ok out errs =>
      match k out with
      | Ok out' errs' => Ok out' (errs ++ errs')
      | Fail msg => Fail msg
      end
  | Fail msg => Fail msg
  end.

(** [d.terror]: a type error is recorded and the value is left alone. *)
Definition terror {T} (out : T) (msg : string) : result T := Ok out [msg].


(** The plain scalars that [resolve] reads as null. *)
Definition is_null (value : string) : bool :=
  bool_decide (value ∈ [""; "~"; "null"; "Null"; "NULL"]).

(** [isMerge]: the plain scalar [<<]. *)
Definition isMerge (n : node) : bool :=
  match n with
  | Scalar true value => String.eqb value "<<"
  | _ => false
  end.

(** A key unmarshalled into a string, [d.unmarshal(ni, name)]: a scalar
    gives its text, a plain null the empty string; a key that is no scalar
    gives a type error. *)
Definition key_name (ni : node) : option string :=
  match ni with
  | Scalar implicit value => Some (if implicit && is_null value then "" else value)
  | _ => None
  end.

Definition wantMap : string := "map merge requires map or sequence of maps as the value".

Section Struct.
Context {T : Type}.
(** [d.unmarshal(n, out)] for [out] the struct itself. *)
Variable unmarshal : decoder T.
Variables (strict : bool) (type : string) (FieldsMap : gmap string (decoder T)).

(** [d.merge] on a sequence: its items are merged from the last to the
    first, and each is to be a mapping. *)
Fixpoint merge_items (items : list node) (out : T) : result T :=
  match items with
  | [] => Ok out []
  | ni :: rest =>
      then_ (merge_items rest out) (fun out =>
        match ni with
        | Mapping _ => unmarshal ni out
        | _ => Fail wantMap
        end)
  end.

(** [d.merge]: the value of a merge key is unmarshalled into the struct. *)
Definition merge (n : node) (out : T) : result T :=
  match n with
  | Mapping _ => unmarshal n out
  | Sequence items => merge_items items out
  | Scalar _ _ => Fail wantMap
  end.

(** The decoder's loop over the children of a mapping that is unmarshalled
    into a struct whose fields are [FieldsMap], by key.  A merge key merges
    its value.  A key that names a field sets it; in strict mode a second
    occurrence of the key is an error and is skipped, and a key that names no
    field is an error. *)
Fixpoint mappingStruct (doneFields : gset string) (children : list (node * node))
    (out : T) : result T :=
  match children with
  | [] => Ok out []
  | (ni, value) :: rest =>
      if isMerge ni then
        then_ (merge value out) (mappingStruct doneFields rest)
      else
        match key_name ni with
        | None =>
            then_ (terror out "cannot unmarshal the key into string")
                  (mappingStruct doneFields rest)
        | Some name =>
            match FieldsMap !! name with
            | Some field =>
                if strict && bool_decide (name ∈ doneFields) then
                  then_ (terror out ("field " +:+ name +:+ " already set in type " +:+ type))
                        (mappingStruct doneFields rest)
                else
                  then_ (field value out) (mappingStruct ({[name]} ∪ doneFields) rest)
            | None =>
                if strict then
                  then_ (terror out ("field " +:+ name +:+ " not found in type " +:+ type))
                        (mappingStruct doneFields rest)
                else mappingStruct doneFields rest out
            end
        end
  end.

End Struct.

(** Unmarshalling a node into a struct: a mapping goes through
    [mappingStruct], a null leaves the zero value, anything else is a type
    error. *)
Fixpoint unmarshal_struct {T} (strict : bool) (type : string)
    (FieldsMap : gmap string (decoder T)) (zero : T) (n : node) (out : T) {struct n}
  : result T :=
  match n with
  | Mapping children =>
      mappingStruct (unmarshal_struct strict type FieldsMap zero) strict type FieldsMap
        ∅ children out
  | Scalar implicit value =>
      if implicit && is_null value then Ok zero []
      else terror out ("cannot unmarshal scalar into " +:+ type)
  | Sequence _ => terror out ("cannot unmarshal sequence into " +:+ type)
  end.

(** The elements of a sequence, each unmarshalled from the zero value.  (The
    decoder leaves out an element that met a type error; the error it records
    makes the whole [Decode] fail, and [main] then drops the value.) *)
Fixpoint sequence_items {T} (elem : decoder T) (zero : T) (items : list node)
  : result (list T) :=
  match items with
  | [] => Ok [] []
  | n :: rest =>
      then_ (elem n zero) (fun x =>
        then_ (sequence_items elem zero rest) (fun xs => Ok (x :: xs) []))
  end.

Definition unmarshal_slice {T} (type : string) (elem : decoder T) (zero : T)
  : decoder (list T) :=
  fun n out =>
    match n with
    | Sequence items => sequence_items elem zero items
    | Scalar implicit value =>
        if implicit && is_null value then Ok [] []
        else terror out ("cannot unmarshal scalar into " +:+ type)
    | Mapping _ => terror out ("cannot unmarshal mapping into " +:+ type)
    end.

(** Decoding one field of a struct: the field's decoder run on the field. *)
Definition on_field {T F} (get : T → F) (set : F → T → T) (dec : decoder F)
  : decoder T :=
  fun n out => then_ (dec n (get out)) (fun f => Ok (set f out) []).

(** [*yaml.TypeError]: its message lists the type errors, one on a line. *)
Definition TypeError (terrors : list string) : error :=
  Opaque ("yaml: unmarshal errors:"
          +:+ String.concat "" ((fun e => String "010" "  " +:+ e) <$> terrors)).


End yaml.

(* ================================================================== *)
(** * The packages [main] builds on, as far as [main] reads them *)
(* ================================================================== *)

(** The configuration types of the trigger packages and of [emby], and
    [processor.Config]: the fields [main] reads or writes. *)
Module manual.
Record Config := mkConfig { Verbosity : string }.
End manual.

Module bernard.
Record Config := mkConfig { DatastorePath : string }.
End bernard.

Module inotify.
Record Config := mkConfig { }.
End inotify.

Module lidarr.
Record Config := mkConfig { Name : string; Verbosity : string }.
End lidarr.

Module radarr.
Record Config := mkConfig { Name : string; Verbosity : string }.
End radarr.

Module sonarr.
Record Config := mkConfig { Name : string; Verbosity : string }.
End sonarr.

Module emby.
Record Config := mkConfig { URL : string }.
End emby.

Module processor.
Record Config := mkConfig {
  Anchors : list string;
  DatastorePath : string;
  MinimumAge : Z;
}.
End processor.

Module time.
Definition Second : Z := 1000000000.
Definition Minute : Z := 60 * Second.
End time.

(* ================================================================== *)
(** * Package [main]: configuration, startup and the driver loop *)
(* ================================================================== *)

Module main.

Record Auth_t := mkAuth { Username : string; Password : string }.

Record Triggers_t := mkTriggers {
  Manual : manual.Config;
  Bernard : list bernard.Config;
  Inotify : list inotify.Config;
  Lidarr : list lidarr.Config;
  Radarr : list radarr.Config;
  Sonarr : list sonarr.Config;
}.

Record Targets_t := mkTargets {
  Plex : list plex.Config;
  Emby : list emby.Config;
}.

(** [type config struct] *)
Record config := mkconfig {
  Port : Z;
  MinimumAge : Z;
  ScanDelay : Z;
  Anchors : list string;
  Auth : Auth_t;
  Triggers : Triggers_t;
  Targets : Targets_t;
}.

(** The flags of [cli]. *)
Record Cli := mkCli {
  cli_Config : string;
  cli_Database : string;
  cli_Log : string;
  cli_Verbosity : Z;
}.

(** [[]autoscan.Target]: the targets [main] builds. *)
Inductive Target :=
| PlexTarget (t : plex.target)
| EmbyTarget (c : emby.Config).

(** How [kong.Parse] ends: it ends the process itself (usage error, help),
    it applies the [--version] flag, or it fills [cli]. *)
Inductive parsed :=
| ParseExit (code : Z)
| VersionFlag
| Parsed (c : Cli).

(** The decoders of the scalar types and of the configuration types declared
    in other packages. *)
Record Decoders := {
  dec_int : yaml.decoder Z;
  dec_duration : yaml.decoder Z;
  dec_string : yaml.decoder string;
  dec_rewrite : yaml.decoder autoscan.Rewrite;
  dec_manual : yaml.decoder manual.Config;
  dec_bernard : yaml.decoder bernard.Config;
  dec_inotify : yaml.decoder inotify.Config;
  dec_lidarr : yaml.decoder lidarr.Config;
  dec_radarr : yaml.decoder radarr.Config;
  dec_sonarr : yaml.decoder sonarr.Config;
  dec_emby : yaml.decoder emby.Config;
}.

(** What [main] calls and the sources do not hold.  [proc_Add] is not
    called by [main]: it is the function every trigger is started with. *)
Class Runtime (W : Type) := {
  plex_runtime :: plex.Runtime W;
  version_string : string;
  kong_Parse : W → parsed * W;
  ctx_Validate : W → option error * W;
  os_Open : string → W → (string + error) * W;
  yaml_parse : string → yaml.node + error;
  decoders : Decoders;
  processor_New : processor.Config → W → option error * W;
  bernard_New : bernard.Config → W → option error * W;
  inotify_New : inotify.Config → W → option error * W;
  manual_New : manual.Config → W → option error * W;
  lidarr_New : lidarr.Config → W → option error * W;
  radarr_New : radarr.Config → W → option error * W;
  sonarr_New : sonarr.Config → W → option error * W;
  emby_New : emby.Config → W → option error * W;
  proc_Add : list autoscan.Scan → W → option error * W;
  proc_CheckAvailability : list Target → W → option error * W;
  proc_Process : list Target → W → option error * W;
}.

(** ** Decoding the configuration file *)

Definition set_Port (x : Z) (c : config) : config :=
  mkconfig x (MinimumAge c) (ScanDelay c) (Anchors c) (Auth c) (Triggers c) (Targets c).
Definition set_MinimumAge (x : Z) (c : config) : config :=
  mkconfig (Port c) x (ScanDelay c) (Anchors c) (Auth c) (Triggers c) (Targets c).
Definition set_ScanDelay (x : Z) (c : config) : config :=
  mkconfig (Port c) (MinimumAge c) x (Anchors c) (Auth c) (Triggers c) (Targets c).
Definition set_Anchors (x : list string) (c : config) : config :=
  mkconfig (Port c) (MinimumAge c) (ScanDelay c) x (Auth c) (Triggers c) (Targets c).
Definition set_Auth (x : Auth_t) (c : config) : config :=
  mkconfig (Port c) (MinimumAge c) (ScanDelay c) (Anchors c) x (Triggers c) (Targets c).
Definition set_Triggers (x : Triggers_t) (c : config) : config :=
  mkconfig (Port c) (MinimumAge c) (ScanDelay c) (Anchors c) (Auth c) x (Targets c).
Definition set_Targets (x : Targets_t) (c : config) : config :=
  mkconfig (Port c) (MinimumAge c) (ScanDelay c) (Anchors c) (Auth c) (Triggers c) x.

Definition set_Username (x : string) (a : Auth_t) : Auth_t := mkAuth x (Password a).
Definition set_Password (x : string) (a : Auth_t) : Auth_t := mkAuth (Username a) x.

Definition set_Manual (x : manual.Config) (t : Triggers_t) : Triggers_t :=
  mkTriggers x (Bernard t) (Inotify t) (Lidarr t) (Radarr t) (Sonarr t).
Definition set_Bernard (x : list bernard.Config) (t : Triggers_t) : Triggers_t :=
  mkTriggers (Manual t) x (Inotify t) (Lidarr t) (Radarr t) (Sonarr t).
Definition set_Inotify (x : list inotify.Config) (t : Triggers_t) : Triggers_t :=
  mkTriggers (Manual t) (Bernard t) x (Lidarr t) (Radarr t) (Sonarr t).
Definition set_Lidarr (x : list lidarr.Config) (t : Triggers_t) : Triggers_t :=
  mkTriggers (Manual t) (Bernard t) (Inotify t) x (Radarr t) (Sonarr t).
Definition set_Radarr (x : list radarr.Config) (t : Triggers_t) : Triggers_t :=
  mkTriggers (Manual t) (Bernard t) (Inotify t) (Lidarr t) x (Sonarr t).
Definition set_Sonarr (x : list sonarr.Config) (t : Triggers_t) : Triggers_t :=
  mkTriggers (Manual t) (Bernard t) (Inotify t) (Lidarr t) (Radarr t) x.

Definition set_Plex (x : list plex.Config) (t : Targets_t) : Targets_t := mkTargets x (Emby t).
Definition set_Emby (x : list emby.Config) (t : Targets_t) : Targets_t := mkTargets (Plex t) x.

Definition set_URL (x : string) (c : plex.Config) : plex.Config :=
  plex.mkConfig x (plex.Token c) (plex.Rewrite c) (plex.Verbosity c).
Definition set_Token (x : string) (c : plex.Config) : plex.Config :=
  plex.mkConfig (plex.URL c) x (plex.Rewrite c) (plex.Verbosity c).
Definition set_Rewrite (x : list autoscan.Rewrite) (c : plex.Config) : plex.Config :=
  plex.mkConfig (plex.URL c) (plex.Token c) x (plex.Verbosity c).
Definition set_Verbosity (x : string) (c : plex.Config) : plex.Config :=
  plex.mkConfig (plex.URL c) (plex.Token c) (plex.Rewrite c) x.

(** The zero values of the struct types. *)
Definition zero_Auth : Auth_t := mkAuth "" "".
Definition zero_Triggers : Triggers_t := mkTriggers (manual.mkConfig "") [] [] [] [] [].
Definition zero_Targets : Targets_t := mkTargets [] [].
Definition zero_config : config := mkconfig 0 0 0 [] zero_Auth zero_Triggers zero_Targets.
Definition zero_plex : plex.Config := plex.mkConfig "" "" [] "".

Section Decode.
Variable d : Decoders.

(** The fields of each struct by their [yaml:] tags. *)
Definition Auth_fields : gmap string (yaml.decoder Auth_t) :=
  {[ "username" := yaml.on_field Username set_Username (dec_string d);
     "password" := yaml.on_field Password set_Password (dec_string d) ]}.

Definition Triggers_fields : gmap string (yaml.decoder Triggers_t) :=
  {[ "manual" := yaml.on_field Manual set_Manual (dec_manual d);
     "bernard" := yaml.on_field Bernard set_Bernard
        (yaml.unmarshal_slice "[]bernard.Config" (dec_bernard d) (bernard.mkConfig ""));
     "inotify" := yaml.on_field Inotify set_Inotify
        (yaml.unmarshal_slice "[]inotify.Config" (dec_inotify d) inotify.mkConfig);
     "lidarr" := yaml.on_field Lidarr set_Lidarr
        (yaml.unmarshal_slice "[]lidarr.Config" (dec_lidarr d) (lidarr.mkConfig "" ""));
     "radarr" := yaml.on_field Radarr set_Radarr
        (yaml.unmarshal_slice "[]radarr.Config" (dec_radarr d) (radarr.mkConfig "" ""));
     "sonarr" := yaml.on_field Sonarr set_Sonarr
        (yaml.unmarshal_slice "[]sonarr.Config" (dec_sonarr d) (sonarr.mkConfig "" "")) ]}.

Definition plex_fields : gmap string (yaml.decoder plex.Config) :=
  {[ "url" := yaml.on_field plex.URL set_URL (dec_string d);
     "token" := yaml.on_field plex.Token set_Token (dec_string d);
     "rewrite" := yaml.on_field plex.Rewrite set_Rewrite
        (yaml.unmarshal_slice "[]autoscan.Rewrite" (dec_rewrite d) (autoscan.mkRewrite "" ""));
     "verbosity" := yaml.on_field plex.Verbosity set_Verbosity (dec_string d) ]}.

Definition Targets_fields : gmap string (yaml.decoder Targets_t) :=
  {[ "plex" := yaml.on_field Plex set_Plex
        (yaml.unmarshal_slice "[]plex.Config"
           (yaml.unmarshal_struct true "plex.Config" plex_fields zero_plex) zero_plex);
     "emby" := yaml.on_field Emby set_Emby
        (yaml.unmarshal_slice "[]emby.Config" (dec_emby d) (emby.mkConfig "")) ]}.

Definition config_fields : gmap string (yaml.decoder config) :=
  {[ "port" := yaml.on_field Port set_Port (dec_int d);
     "minimum-age" := yaml.on_field MinimumAge set_MinimumAge (dec_duration d);
     "scan-delay" := yaml.on_field ScanDelay set_ScanDelay (dec_duration d);
     "anchors" := yaml.on_field Anchors set_Anchors
        (yaml.unmarshal_slice "[]string" (dec_string d) "");
     "authentication" := yaml.on_field Auth set_Auth
        (yaml.unmarshal_struct true "struct { Username; Password }" Auth_fields zero_Auth);
     "triggers" := yaml.on_field Triggers set_Triggers
        (yaml.unmarshal_struct true "struct { Manual; ... }" Triggers_fields zero_Triggers);
     "targets" := yaml.on_field Targets set_Targets
        (yaml.unmarshal_struct true "struct { Plex; Emby }" Targets_fields zero_Targets) ]}.

(** [decoder.SetStrict(true); decoder.Decode(&c)] on a parsed document: the
    struct as it is left, and the error returned ([*yaml.TypeError] when any
    type error was met, the failure when the decoder gave up).  After a
    failure the struct is given as it was: [main] does not read it. *)
Definition Decode (doc : yaml.node) (c : config) : config * option error :=
  match yaml.unmarshal_struct true "main.config" config_fields zero_config doc c with
  | yaml.Ok c' [] => (c', None)
  | yaml.Ok c' terrors => (c', Some (yaml.TypeError terrors))
  | yaml.Fail msg => (c, Some (Opaque ("yaml: " +:+ msg)))
  end.

End Decode.







(** [// set default values] *)
Definition default_config : config :=
  mkconfig 3030 (10 * time.Minute) (5 * time.Second) [] zero_Auth zero_Triggers zero_Targets.

(** The condition of the warning, lines 187-188. *)
Definition webhooks_without_authentication (c : config) : bool :=
  (String.eqb (Username (Auth c)) "" || String.eqb (Password (Auth c)) "")
  && (0 <? Z.of_nat (length (Radarr (Triggers c))) + Z.of_nat (length (Sonarr (Triggers c)))).

Section Daemon.
Context {W : Type} {rt : Runtime W}.

(** [log.Fatal()] on a non-nil error, nothing otherwise. *)
Definition fatal_if (err : option error) (fields : list zerolog.field) (msg : string)
  : go.M W unit :=
  match err with
  | Some e => go.log_Fatal (zerolog.Err e :: fields) msg
  | None => go.ret tt
  end.

(** [mux.Handle(pattern, handler)]: [http.ServeMux] panics when the pattern
    is registered already.  (The patterns of [main] are [/triggers/] followed
    by a name, none is empty.  From Go 1.22 on, [ServeMux] reads a pattern as
    a method, a host and a path with wildcards, and panics on one it cannot
    parse as well, such as a name with a space or a brace: that is not
    modelled.) *)
Definition mux_Handle (mux : gset string) (pattern : string) : go.M W (gset string) :=
  if bool_decide (pattern ∈ mux)
  then go.panic (go.MultipleRegistrations pattern)
  else go.emit (Handle pattern) ;; go.ret ({[pattern]} ∪ mux).

(** Lines 144-166: the configuration file is opened and decoded over the
    default values. *)
Definition load_config (cli : Cli) : go.M W config :=
  file <- go.call (Call "os.Open") (os_Open (cli_Config cli)) ;;
  match file with
  | inr err => go.log_Fatal [zerolog.Err err] "Failed opening config"
  | inl text =>
      let c := default_config in
      let '(c, err) :=
        match yaml_parse text with
        | inr err => (c, Some err)
        | inl doc => Decode decoders doc c
        end in
      fatal_if err [] "Failed decoding config" ;;
      go.ret c
  end.

(** Lines 192-219: the daemon triggers. *)
Definition start_daemon_triggers (cli : Cli) (c : config) : go.M W unit :=
  go.for_each (Bernard (Triggers c)) (fun t =>
    let t := if String.eqb (bernard.DatastorePath t) ""
             then bernard.mkConfig (cli_Database cli) else t in
    err <- go.call (Call "bernard.New") (bernard_New t) ;;
    fatal_if err [zerolog.Str "trigger" "bernard"] "Failed initialising trigger" ;;
    go.emit (Go "bernard")) ;;
  go.for_each (Inotify (Triggers c)) (fun t =>
    err <- go.call (Call "inotify.New") (inotify_New t) ;;
    fatal_if err [zerolog.Str "trigger" "inotify"] "Failed initialising trigger" ;;
    go.emit (Go "inotify")).

(** Lines 221-270: the HTTP triggers, each registered on the mux. *)
Definition register_http_triggers (c : config) (mux : gset string)
  : go.M W (gset string) :=
  err <- go.call (Call "manual.New") (manual_New (Manual (Triggers c))) ;;
  fatal_if err [zerolog.Str "trigger" "manual"] "Failed initialising trigger" ;;
  mux <- mux_Handle mux "/triggers/manual" ;;
  mux <- go.fold_each (Lidarr (Triggers c)) mux (fun mux t =>
    err <- go.call (Call "lidarr.New") (lidarr_New t) ;;
    fatal_if err [zerolog.Str "trigger" (lidarr.Name t)] "Failed initialising trigger" ;;
    mux_Handle mux ("/triggers/" +:+ lidarr.Name t)) ;;
  mux <- go.fold_each (Radarr (Triggers c)) mux (fun mux t =>
    err <- go.call (Call "radarr.New") (radarr_New t) ;;
    fatal_if err [zerolog.Str "trigger" (radarr.Name t)] "Failed initialising trigger" ;;
    mux_Handle mux ("/triggers/" +:+ radarr.Name t)) ;;
  go.fold_each (Sonarr (Triggers c)) mux (fun mux t =>
    err <- go.call (Call "sonarr.New") (sonarr_New t) ;;
    fatal_if err [zerolog.Str "trigger" (sonarr.Name t)] "Failed initialising trigger" ;;
    mux_Handle mux ("/triggers/" +:+ sonarr.Name t)).

(** Lines 290-317: the targets, plex first, in the order of the file. *)
Definition init_plex_targets (configs : list plex.Config) (targets : list Target)
  : go.M W (list Target) :=
  go.fold_each configs targets (fun targets t =>
    r <- plex.New t ;;
    fatal_if r.2 [zerolog.Str "target" "plex"; zerolog.Str "target_url" (plex.URL t)]
             "Failed initialising target" ;;
    match r.1 with
    | Some tp => go.ret (targets ++ [PlexTarget tp])
    | None => go.ret targets            (* not reached: [New] gives a target or an error *)
    end).

Definition init_emby_targets (configs : list emby.Config) (targets : list Target)
  : go.M W (list Target) :=
  go.fold_each configs targets (fun targets t =>
    err <- go.call (Call "emby.New") (emby_New t) ;;
    fatal_if err [zerolog.Str "target" "emby"; zerolog.Str "target_url" (emby.URL t)]
             "Failed initialising target" ;;
    go.ret (targets ++ [EmbyTarget t])).

Definition init_targets (c : config) : go.M W (list Target) :=
  let targets := [] in
  targets <- init_plex_targets (Plex (Targets c)) targets ;;
  targets <- init_emby_targets (Emby (Targets c)) targets ;;
  go.log zerolog.InfoLevel
    [zerolog.Int "plex" (Z.of_nat (length (Plex (Targets c))));
     zerolog.Int "emby" (Z.of_nat (length (Emby (Targets c))))]
    "Initialised targets" ;;
  go.ret targets.

(** ** The driver loop, lines 327-395 *)

(** One pass through the body of [for { ... }], from the value of
    [targetsAvailable] to its value when the next pass starts. *)
Definition iteration (c : config) (targets : list Target) (targetsAvailable : bool)
  : go.M W bool :=
  probe <-
    (if negb targetsAvailable then
       err <- go.call_with CheckAvailability (proc_CheckAvailability targets) ;;
       match err with
       | None => go.ret (Some true)
       | Some e =>
           if errors.Is e autoscan.ErrFatal then
             go.log zerolog.ErrorLevel [zerolog.Err e]
               "Fatal error occurred while checking target availability, processor stopped, triggers will continue..." ;;
             go.block                                           (* [select {}] *)
           else
             go.log zerolog.ErrorLevel [zerolog.Err e]
               "Not all targets are available, retrying in 15 seconds..." ;;
             go.emit (Sleep (15 * time.Second)) ;;
             go.ret None                                        (* [continue] *)
       end
     else go.ret (Some targetsAvailable)) ;;
  match probe with
  | None => go.ret targetsAvailable
  | Some targetsAvailable =>
      err <- go.call_with Process (proc_Process targets) ;;
      match err with
      | None =>
          go.emit (Sleep (ScanDelay c)) ;;
          go.ret targetsAvailable
      | Some e =>
          if errors.Is e autoscan.ErrNoScans then
            go.log zerolog.TraceLevel [] "No scans are available, retrying in 15 seconds..." ;;
            go.emit (Sleep (15 * time.Second)) ;;
            go.ret targetsAvailable
          else if errors.Is e autoscan.ErrAnchorUnavailable then
            go.log zerolog.ErrorLevel [zerolog.Err e]
              "Not all anchor files are available, retrying in 15 seconds..." ;;
            go.emit (Sleep (15 * time.Second)) ;;
            go.ret targetsAvailable
          else if errors.Is e autoscan.ErrTargetUnavailable then
            let targetsAvailable := false in
            go.log zerolog.ErrorLevel [zerolog.Err e]
              "Not all targets are available, retrying in 15 seconds..." ;;
            go.emit (Sleep (15 * time.Second)) ;;
            go.ret targetsAvailable
          else if errors.Is e autoscan.ErrFatal then
            go.log zerolog.ErrorLevel [zerolog.Err e]
              "Fatal error occurred while processing targets, processor stopped, triggers will continue..." ;;
            go.block                                            (* [select {}] *)
          else
            go.log_Fatal [zerolog.Err e] "Failed processing targets"
      end
  end.

(** The first [n] passes of the loop. *)
Fixpoint loop (n : nat) (c : config) (targets : list Target) (targetsAvailable : bool)
  : go.M W bool :=
  match n with
  | O => go.ret targetsAvailable
  | S n' =>
      targetsAvailable <- iteration c targets targetsAvailable ;;
      loop n' c targets targetsAvailable
  end.

(** [main] from line 168 on, once the configuration [c] is decoded, with the
    first [n] passes of the driver loop.  The goroutine of line 272 serves
    the mux; should [http.ListenAndServe] fail it ends the process from
    there. *)
Definition start (cli : Cli) (c : config) (n : nat) : go.M W bool :=
  let mux : gset string := ∅ in
  err <- go.call (Call "processor.New")
           (processor_New (processor.mkConfig (Anchors c) (cli_Database cli) (MinimumAge c))) ;;
  fatal_if err [] "Failed initialising processor" ;;
  go.log zerolog.InfoLevel
    [zerolog.Stringer "min_age" (MinimumAge c); zerolog.Strs "anchors" (Anchors c)]
    "Initialised processor" ;;
  (if webhooks_without_authentication c
   then go.log zerolog.WarnLevel [] "Webhooks running without authentication"
   else go.ret tt) ;;
  start_daemon_triggers cli c ;;
  mux <- register_http_triggers c mux ;;
  go.emit (Go "http.ListenAndServe") ;;
  go.log zerolog.InfoLevel
    [zerolog.Int "manual" 1;
     zerolog.Int "bernard" (Z.of_nat (length (Bernard (Triggers c))));
     zerolog.Int "inotify" (Z.of_nat (length (Inotify (Triggers c))));
     zerolog.Int "lidarr" (Z.of_nat (length (Lidarr (Triggers c))));
     zerolog.Int "sonarr" (Z.of_nat (length (Sonarr (Triggers c))));
     zerolog.Int "radarr" (Z.of_nat (length (Radarr (Triggers c))))]
    "Initialised triggers" ;;
  targets <- init_targets c ;;
  go.log zerolog.InfoLevel [] "Processor started" ;;
  let targetsAvailable := false in
  loop n c targets targetsAvailable.

(** [main] from line 141 on, once [cli] is filled.  The logger set up in
    lines 118-139 only decides which lines are shown. *)
Definition run (cli : Cli) (n : nat) : go.M W bool :=
  c <- load_config cli ;;
  start cli c n.

(** [main]: the command line is parsed first. *)
Definition main (n : nat) : go.M W bool :=
  p <- go.call (Call "kong.Parse") kong_Parse ;;
  match p with
  | ParseExit code => go.exit code
  | VersionFlag =>
      go.emit (Println [version_string]) ;;      (* [versionFlag.BeforeApply] *)
      go.exit 0
  | Parsed cli =>
      err <- go.call (Call "ctx.Validate") ctx_Validate ;;
      match err with
      | Some e => go.emit (Println ["Failed parsing cli:"]) ;; go.exit 1
      | None => run cli n
      end
  end.

End Daemon.

(** ** What the traces of the loop are checked against *)

Definition is_dispatch_call (e : event) : bool :=
  match e with
  | CheckAvailability _ | Process _ => true
  | _ => false
  end.

Definition is_warning (e : event) : bool :=
  match e with Log zerolog.WarnLevel _ _ => true | _ => false end.


(** The answer of [Process] is an error that matches [ErrTargetUnavailable]
    and neither of the two sentinels the switch of lines 353-394 tries
    before it. *)
Definition unavailable (res : option error) : bool :=
  match res with
  | Some e =>
      negb (errors.Is e autoscan.ErrNoScans)
      && negb (errors.Is e autoscan.ErrAnchorUnavailable)
      && errors.Is e autoscan.ErrTargetUnavailable
  | None => false
  end.

(** A monitor for "no [Process] after an unavailable target until
    [CheckAvailability] has returned nil": [pending] holds from a [Process]
    whose answer is [unavailable] up to the next [CheckAvailability] that
    returned nil; a [Process] met while it holds is a violation. *)
Fixpoint reprobed (pending : bool) (t : list event) : bool :=
  match t with
  | [] => true
  | CheckAvailability None :: t' => reprobed false t'
  | Process res :: t' => negb pending && reprobed (unavailable res) t'
  | _ :: t' => reprobed pending t'
  end.

(** Whether a probe is pending after the events of [t]. *)
Fixpoint pending_after (pending : bool) (t : list event) : bool :=
  match t with
  | [] => pending
  | CheckAvailability None :: t' => pending_after false t'
  | Process res :: t' => pending_after (unavailable res) t'
  | _ :: t' => pending_after pending t'
  end.

End main.

(* ================================================================== *)
(** * A concrete outside world, for running the definitions *)
(* ================================================================== *)

Module example.

(** The state of everything outside the daemon: what the Plex server reports
    as its version, the answers the rclone endpoints will give (in the order
    of the requests), the answers [CheckAvailability] and [Process] will give,
    the text of the configuration file and the scans in the store. *)
Record world := mkWorld {
  plex_version : string;
  http_answers : list (plex.Response + error);
  availability : list (option error);
  processing : list (option error);
  config_text : string;
  store : list autoscan.Scan;
}.

Definition ok_response : plex.Response := plex.mkResponse "200 OK" "map[]" "{}".

Definition movies : plex.library := plex.mkLibrary 1 "Movies" "/media/Movies".

Definition render (m : gmap string string) : string :=
  foldr (fun kv acc => kv.1 +:+ "=" +:+ kv.2 +:+ ";" +:+ acc) "" (map_to_list m).

Definition plex_runtime : plex.Runtime world := {|
  plex.NewRewriter rules := (autoscan.prefix_rewriter rules, None);
  plex.api_Version _ w := ((plex_version w, None), w);
  plex.api_Libraries _ w := (([movies], None), w);
  plex.api_Scan _ _ _ w := (None, w);
  plex.json_Marshal := render;
  plex.http_Do _ _ w :=
    match http_answers w with
    | [] => (inl ok_response, w)
    | a :: rest =>
        (a, mkWorld (plex_version w) rest (availability w) (processing w)
                    (config_text w) (store w))
    end;
|}.

(** A parser for files of one line [key: value] with plain scalars, for the
    empty mapping [{}] and for the null document [~]. *)
Definition parse_line (text : string) : yaml.node + error :=
  match strings.Split text ": " with
  | [key; value] => inl (yaml.Mapping [(yaml.Scalar true key, yaml.Scalar true value)])
  | _ =>
      if String.eqb text "{}" then inl (yaml.Mapping [])
      else if String.eqb text "~" then inl (yaml.Scalar true "~")
      else inr (Opaque "yaml: did not find expected key")
  end.

Definition scalar_int : yaml.decoder Z :=
  fun n out =>
    match n with
    | yaml.Scalar true text =>
        if yaml.is_null text then yaml.Ok 0 []
        else match strconv.Atoi text with
             | (x, None) => yaml.Ok x []
             | (_, Some _) => yaml.terror out "cannot unmarshal into int"
             end
    | _ => yaml.terror out "cannot unmarshal into int"
    end.

Definition scalar_string : yaml.decoder string :=
  fun n out =>
    match n with
    | yaml.Scalar implicit text =>
        yaml.Ok (if implicit && yaml.is_null text then "" else text) []
    | _ => yaml.terror out "cannot unmarshal into string"
    end.

Definition keep {T} : yaml.decoder T := fun _ out => yaml.Ok out [].

Definition example_decoders : main.Decoders := {|
  main.dec_int := scalar_int;
  main.dec_duration := scalar_int;
  main.dec_string := scalar_string;
  main.dec_rewrite := keep;
  main.dec_manual := keep;
  main.dec_bernard := keep;
  main.dec_inotify := keep;
  main.dec_lidarr := keep;
  main.dec_radarr := keep;
  main.dec_sonarr := keep;
  main.dec_emby := keep;
|}.

Definition pop_availability (w : world) : option error * world :=
  match availability w with
  | [] => (None, w)
  | a :: rest =>
      (a, mkWorld (plex_version w) (http_answers w) rest (processing w)
                  (config_text w) (store w))
  end.

Definition pop_processing (w : world) : option error * world :=
  match processing w with
  | [] => (Some (Sentinel autoscan.ErrNoScans), w)
  | a :: rest =>
      (a, mkWorld (plex_version w) (http_answers w) (availability w) rest
                  (config_text w) (store w))
  end.

Definition enqueue (scans : list autoscan.Scan) (w : world) : option error * world :=
  (None, mkWorld (plex_version w) (http_answers w) (availability w) (processing w)
                 (config_text w) (store w ++ scans)).

Definition the_cli : main.Cli :=
  main.mkCli "/config/config.yml" "/config/autoscan.db" "/config/activity.log" 0.

Definition main_runtime : main.Runtime world := {|
  main.plex_runtime := plex_runtime;
  main.version_string := "1.0.0 (abcdef@2020)";
  main.kong_Parse w := (main.Parsed the_cli, w);
  main.ctx_Validate w := (None, w);
  main.os_Open _ w := (inl (config_text w), w);
  main.yaml_parse := parse_line;
  main.decoders := example_decoders;
  main.processor_New _ w := (None, w);
  main.bernard_New _ w := (None, w);
  main.inotify_New _ w := (None, w);
  main.manual_New _ w := (None, w);
  main.lidarr_New _ w := (None, w);
  main.radarr_New _ w := (None, w);
  main.sonarr_New _ w := (None, w);
  main.emby_New _ w := (None, w);
  main.proc_Add := enqueue;
  main.proc_CheckAvailability _ := pop_availability;
  main.proc_Process _ := pop_processing;
|}.

(** A world in which everything answers well. *)
Definition calm : world := mkWorld "1.20.3" [] [] [] "{}" [].

(** The target of the rewrite scenario: [/downloads] is seen as [/media]. *)
Definition the_target : plex.target :=
  plex.mkTarget "http://plex:32400" "token" [movies]
    (autoscan.prefix_rewriter [autoscan.mkRewrite "/downloads" "/media"])
    (plex.newAPIClient "http://plex:32400" "token").

Definition the_scan : autoscan.Scan :=
  autoscan.mkScan "/downloads/Movies/X" "x.mkv" 0 0.

(** A scan of a folder outside every library of the target. *)
Definition stray_scan : autoscan.Scan :=
  autoscan.mkScan "/downloads/Music/Y" "y.flac" 0 0.

(** A world whose first rclone endpoint cannot be reached. *)
Definition unreachable : error := Opaque "dial tcp 192.168.1.172:5570: connect: connection refused".
Definition cut_off : world := mkWorld "1.20.3" [inr unreachable] [] [] "{}" [].

Definition down : error :=
  Errorf "plex target unavailable: " (Sentinel autoscan.ErrTargetUnavailable).
Definition locked : error := Opaque "database is locked".

Definition idle_and_down : error := Join (Sentinel autoscan.ErrNoScans) down.

Definition target_down : world := mkWorld "1.20.3" [] [] [Some down] "{}" [].
Definition store_locked : world := mkWorld "1.20.3" [] [] [Some locked] "{}" [].
Definition mixed_down : world := mkWorld "1.20.3" [] [] [Some idle_and_down; None] "{}" [].

(** A Plex server of a version that is too old, and the target configured
    for it. *)
Definition old_server : world := mkWorld "1.19.5" [] [] [] "{}" [].
Definition the_plex : plex.Config := plex.mkConfig "http://plex:32400" "token" [] "".

(** A configuration file with a key the schema does not have, and one that
    holds a null document. *)
Definition misspelt : world := mkWorld "1.20.3" [] [] [] "prot: 3030" [].

(** A configuration with one lidarr webhook and no authentication. *)
Definition lidarr_only : main.config :=
  main.set_Triggers
    (main.set_Lidarr [lidarr.mkConfig "lidarr" ""] (main.Triggers main.default_config))
    main.default_config.

End example.

(* ================================================================== *)
(** * Reading runs: how they end and what they ask for *)
(* ================================================================== *)

Module runs.

(** How a run ends, whatever it returns. *)
Inductive ending :=
| Returns
| Panics (v : go.panic_value)
| Exits (code : Z)
| Blocks.

Definition ending_of {A} (o : go.outcome A) : ending :=
  match o with
  | go.Done _ => Returns
  | go.Panicked v => Panics v
  | go.Exited c => Exits c
  | go.Blocked => Blocks
  end.

(** Every run of [m] ends in a way that satisfies [Q]. *)
Definition ends {W A} (Q : ending → Prop) (m : go.M W A) : Prop :=
  ∀ w, Q (ending_of (go.result (m w))).

(** The scan requests of a trace, in order: URL, path and library. *)
Fixpoint scan_requests (t : list event) : list (string * string * Z) :=
  match t with
  | [] => []
  | APIScan url path libID :: t' => (url, path, libID) :: scan_requests t'
  | _ :: t' => scan_requests t'
  end.

(** The refresh requests of a trace, in order: URL and body. *)
Fixpoint posts (t : list event) : list (string * string) :=
  match t with
  | [] => []
  | HTTPPost url body :: t' => (url, body) :: posts t'
  | _ :: t' => posts t'
  end.

(** The sleeps of a trace, in order. *)
Fixpoint sleeps (t : list event) : list Z :=
  match t with
  | [] => []
  | Sleep ns :: t' => ns :: sleeps t'
  | _ :: t' => sleeps t'
  end.

Definition is_APIScan (e : event) : bool :=
  match e with APIScan _ _ _ => true | _ => false end.

Definition is_HTTPPost (e : event) : bool :=
  match e with HTTPPost _ _ => true | _ => false end.

Definition is_Process_nil (e : event) : bool :=
  match e with Process None => true | _ => false end.

Definition is_started (e : event) : bool :=
  match e with
  | Log zerolog.InfoLevel [] msg => String.eqb msg "Processor started"
  | _ => false
  end.

(** No target is probed or dispatched to before the line "Processor
    started". *)
Fixpoint quiet_until_started (t : list event) : bool :=
  match t with
  | [] => true
  | e :: t' =>
      is_started e || (negb (main.is_dispatch_call e) && quiet_until_started t')
  end.

(** How [main] may end once the command line is parsed: any exit is with
    code 1, any panic is a pattern registered twice on the mux. *)
Definition startup_failure_or_stall (e : ending) : Prop :=
  match e with
  | Returns | Blocks | Exits 1 | Panics (go.MultipleRegistrations _) => True
  | _ => False
  end.

End runs.

(** A second concrete world: a Plex server with two libraries that cannot
    scan the second. *)
Module flaky.

Definition tv : plex.library := plex.mkLibrary 2 "TV" "/media".

Definition busy : error :=
  Errorf "scan failed: " (Sentinel autoscan.ErrTargetUnavailable).

Definition plex_runtime : plex.Runtime example.world := {|
  plex.NewRewriter rules := (autoscan.prefix_rewriter rules, None);
  plex.api_Version _ w := ((example.plex_version w, None), w);
  plex.api_Libraries _ w := (([example.movies; tv], None), w);
  plex.api_Scan _ _ libID w := (if libID =? 2 then Some busy else None, w);
  plex.json_Marshal := example.render;
  plex.http_Do _ _ w := (inl example.ok_response, w);
|}.

Definition the_target : plex.target :=
  plex.mkTarget "http://plex:32400" "token" [example.movies; tv]
    (autoscan.prefix_rewriter [autoscan.mkRewrite "/downloads" "/media"])
    (plex.newAPIClient "http://plex:32400" "token").

End flaky.

(** More concrete cases: a library that is the media root itself, an rclone
    endpoint that does not know the folder yet, a webhook that takes the name
    of the manual trigger, and a configuration with one target of each
    kind. *)
Module cases.

Definition media_root : plex.library := plex.mkLibrary 3 "Media" "/mnt/unionfs/Media".

Definition root_target : plex.target :=
  plex.mkTarget "http://plex:32400" "token" [media_root]
    (autoscan.prefix_rewriter [])
    (plex.newAPIClient "http://plex:32400" "token").

Definition root_scan : autoscan.Scan := autoscan.mkScan "/mnt/unionfs/Media" "x.mkv" 0 0.

Definition not_there : plex.Response :=
  plex.mkResponse "500 Internal Server Error" "map[]" "file does not exist".

Definition new_folder : example.world :=
  example.mkWorld "1.20.3" [inl not_there] [] [] "{}" [].

Definition clash : main.config :=
  main.set_Triggers
    (main.set_Lidarr [lidarr.mkConfig "music" ""; lidarr.mkConfig "manual" ""]
       (main.Triggers main.default_config))
    main.default_config.

Definition two_targets : main.config :=
  main.set_Targets
    (main.mkTargets [example.the_plex] [emby.mkConfig "http://emby:8096"])
    main.default_config.

End cases.

(* ================================================================== *)
(** * Properties *)
(* ================================================================== *)

(** ** Strings and numbers *)

Lemma prefix_dot (c : ascii) (s : string) :
  String.prefix "." (String c s) = Ascii.eqb "." c.
Proof.
  destruct (Ascii.eqb_spec "." c) as [<-|Hne].
  - by destruct s.
  - cbn [String.prefix]. by destruct (ascii_dec "." c).
Qed.

(** [strings.Split(s, ".")] has one part more than [s] has dots. *)
Lemma Split_dot_length (s cur : string) :
  length (strings.split_go "." 0 cur s) = S (strings.count_byte "." s).
Proof.
  revert cur. induction s as [|c s IH]; intros cur; [done|].
  cbn [strings.split_go strings.count_byte]. rewrite prefix_dot.
  destruct (Ascii.eqb "." c); cbn [length]; rewrite IH; lia.
Qed.

(** A syntax error of [Atoi] comes with the value 0. *)
Lemma Atoi_syntax_zero (s : string) :
  (strconv.Atoi s).2 = Some strconv.ErrSyntax → (strconv.Atoi s).1 = 0.
Proof.
  unfold strconv.Atoi.
  destruct ((0 <? String.length s)%nat && (String.length s <? 19)%nat).
  - destruct s as [|c s]; [done|].
    destruct (_ && _); [done|].
    destruct (strconv.fast_digits _ 0); [|done].
    simpl. discriminate.
  - unfold strconv.ParseInt. destruct s as [|c s]; [done|].
    destruct (strconv.ParseUint _) as [un [[]|]]; simpl; try done;
      repeat (case_match; simpl; try done).
Qed.

(** The parts of a version string that [isSupportedVersion] looks at. *)
Lemma isSupportedVersion_parts (v major_s minor_s : string) (rest : list string) :
  strings.Split v "." = major_s :: minor_s :: rest →
  plex.isSupportedVersion v =
    (2 <=? (strconv.Atoi major_s).1)
    || (((strconv.Atoi major_s).1 =? 1) && (20 <=? (strconv.Atoi minor_s).1)).
Proof. unfold plex.isSupportedVersion. by intros ->. Qed.

Lemma isSupportedVersion_short (v : string) :
  (length (strings.Split v ".") < 2)%nat → plex.isSupportedVersion v = false.
Proof.
  unfold plex.isSupportedVersion.
  destruct (strings.Split v ".") as [|? [|? ?]]; simpl; [done|done|lia].
Qed.

Lemma byte_minus_0_non_digit (c : ascii) :
  plex.is_digit c = false → (9 <? strconv.byte_minus_0 c) = true.
Proof.
  unfold plex.is_digit, strconv.byte_minus_0. intros H.
  pose proof (nat_ascii_bounded c) as Hb. apply Z.ltb_lt.
  apply andb_false_iff in H as [H|H].
  - apply Nat.leb_gt in H.
    replace (Z.of_nat (nat_of_ascii c) - 48)
      with (Z.of_nat (nat_of_ascii c) + 208 + (-1) * 256) by lia.
    rewrite Z.mod_add, Z.mod_small by lia. lia.
  - apply Nat.leb_gt in H. rewrite Z.mod_small by lia. lia.
Qed.

Lemma fast_digits_non_digits (s : string) (n : Z) :
  plex.all_digits s = false → strconv.fast_digits s n = None.
Proof.
  revert n. induction s as [|c s IH]; intros n; [done|].
  cbn [plex.all_digits strconv.fast_digits]. intros H.
  destruct (plex.is_digit c) eqn:Hc.
  - destruct (9 <? strconv.byte_minus_0 c); [done|]. by apply IH.
  - by rewrite byte_minus_0_non_digit.
Qed.

(** A part shorter than 19 bytes that is no numeral is a syntax error for
    [Atoi], which returns 0 with it. *)
Lemma Atoi_non_numeric (s : string) :
  (String.length s < 19)%nat → plex.numeric s = false →
  strconv.Atoi s = (0, Some strconv.ErrSyntax).
Proof.
  intros Hlen Hnum. unfold strconv.Atoi.
  destruct s as [|c s]; [done|].
  replace ((0 <? String.length (String c s))%nat && (String.length (String c s) <? 19)%nat)
    with true by (symmetry; apply andb_true_iff; split;
                  [by apply Nat.ltb_lt; simpl; lia | by apply Nat.ltb_lt]).
  unfold plex.numeric in Hnum.
  destruct (Ascii.eqb c "-" || Ascii.eqb c "+") eqn:Hsign.
  - cbn [andb]. destruct (String.length s <? 1)%nat eqn:Hs; [done|].
    apply Nat.ltb_ge in Hs.
    replace (0 <? String.length s)%nat with true in Hnum
      by (symmetry; apply Nat.ltb_lt; lia).
    by rewrite fast_digits_non_digits.
  - cbn [andb]. by rewrite fast_digits_non_digits.
Qed.

(** ** [isSupportedVersion] *)

(** C10, as the claim states it, fails: the version ["2.x"] is malformed (its
    minor part is no numeral) and yet [isSupportedVersion] accepts it, the
    major part alone being enough from 2 on. *)
Lemma isSupportedVersion_accepts_malformed :
  plex.malformed "2.x" = true ∧ plex.isSupportedVersion "2.x" = true.
Proof. split; reflexivity. Qed.

(** C10 (amended): [isSupportedVersion] is a total function from strings to
    booleans.  A version has one part more than it has dots, and one of fewer
    than two parts is unsupported.  A syntax error of [Atoi] is dropped and
    leaves the value 0; a major or minor part shorter than 19 bytes that is no
    numeral is such an error.  Hence a malformed version string is supported
    exactly when its major part reads as 2 or more, and ["1.20b"] is
    rejected. *)
Theorem isSupportedVersion_malformed :
  (∀ v, length (strings.Split v ".") = S (strings.count_byte "." v))
  ∧ (∀ v, (length (strings.Split v ".") < 2)%nat → plex.isSupportedVersion v = false)
  ∧ (∀ s, (strconv.Atoi s).2 = Some strconv.ErrSyntax → (strconv.Atoi s).1 = 0)
  ∧ (∀ s, (String.length s < 19)%nat → plex.numeric s = false →
       strconv.Atoi s = (0, Some strconv.ErrSyntax))
  ∧ (∀ v major_s minor_s rest,
       strings.Split v "." = major_s :: minor_s :: rest →
       (String.length major_s < 19)%nat → (String.length minor_s < 19)%nat →
       plex.malformed v = true →
       plex.isSupportedVersion v = (2 <=? (strconv.Atoi major_s).1))
  ∧ plex.isSupportedVersion "1.20b" = false.
Proof.
  split_and!.
  - intros v. apply Split_dot_length.
  - apply isSupportedVersion_short.
  - apply Atoi_syntax_zero.
  - apply Atoi_non_numeric.
  - intros v major_s minor_s rest Hparts Hma Hmi Hmal.
    rewrite (isSupportedVersion_parts _ _ _ _ Hparts).
    unfold plex.malformed in Hmal. rewrite Hparts in Hmal.
    apply orb_true_iff in Hmal as [H|H]; apply negb_true_iff in H.
    + by rewrite (Atoi_non_numeric _ Hma H).
    + rewrite (Atoi_non_numeric _ Hmi H). cbn [fst].
      by rewrite andb_false_r, orb_false_r.
  - reflexivity.
Qed.

Lemma isSupportedVersion_malformed_witness :
  plex.isSupportedVersion "plex" = false
  ∧ (strconv.Atoi "20b").1 = 0
  ∧ strconv.Atoi "x" = (0, Some strconv.ErrSyntax)
  ∧ plex.isSupportedVersion "1.20b" = (2 <=? (strconv.Atoi "1").1).
Proof.
  destruct isSupportedVersion_malformed as (_ & Hshort & Hsyntax & Hatoi & Hmal & _).
  split_and!.
  - apply Hshort. vm_compute. lia.
  - apply Hsyntax. reflexivity.
  - apply Hatoi; [vm_compute; lia | reflexivity].
  - apply (Hmal "1.20b" "1" "20b" []);
      [reflexivity | vm_compute; lia | vm_compute; lia | reflexivity].
Defined.

(** ** Runs and their traces *)

Section Traces.
Context {W : Type}.
Implicit Types (P : event → Prop) (w : W).

Lemma bind_done {A B} (m : go.M W A) (k : A → go.M W B) w a w1 t1 :
  m w = (go.Done a, w1, t1) →
  go.bind m k w = ((k a w1).1.1, (k a w1).1.2, t1 ++ (k a w1).2).
Proof. unfold go.bind. intros ->. by destruct (k a w1) as [[??]?]. Qed.

Lemma bind_panicked {A B} (m : go.M W A) (k : A → go.M W B) w v w1 t1 :
  m w = (go.Panicked v, w1, t1) → go.bind m k w = (go.Panicked v, w1, t1).
Proof. unfold go.bind. by intros ->. Qed.

Lemma bind_exited {A B} (m : go.M W A) (k : A → go.M W B) w c w1 t1 :
  m w = (go.Exited c, w1, t1) → go.bind m k w = (go.Exited c, w1, t1).
Proof. unfold go.bind. by intros ->. Qed.


Lemma emits_only_ret {A} P (a : A) : go.emits_only (W:=W) P (go.ret a).
Proof. intros w. constructor. Qed.

Lemma emits_only_bind {A B} P (m : go.M W A) (k : A → go.M W B) :
  go.emits_only P m → (∀ a, go.emits_only P (k a)) → go.emits_only P (go.bind m k).
Proof.
  intros Hm Hk w. specialize (Hm w). unfold go.bind, go.trace in *.
  destruct (m w) as [[[a| | |] w1] t1]; cbn in *; try done.
  specialize (Hk a w1). unfold go.trace in Hk.
  destruct (k a w1) as [[o w2] t2]; cbn in *. by apply Forall_app.
Qed.

Lemma emits_only_emit P e : P e → go.emits_only (W:=W) P (go.emit e).
Proof. intros He w. by repeat constructor. Qed.

Lemma emits_only_panic {A} P v : go.emits_only (W:=W) (A:=A) P (go.panic v).
Proof. intros w. constructor. Qed.

Lemma emits_only_exit {A} P c : go.emits_only (W:=W) (A:=A) P (go.exit c).
Proof. intros w. constructor. Qed.

Lemma emits_only_block {A} P : go.emits_only (W:=W) (A:=A) P go.block.
Proof. intros w. constructor. Qed.

Lemma emits_only_call {A} P e (f : W → A * W) : P e → go.emits_only P (go.call e f).
Proof. intros He w. unfold go.call, go.trace. destruct (f w). by repeat constructor. Qed.

Lemma emits_only_call_with {A} P (e : A → event) (f : W → A * W) :
  (∀ a, P (e a)) → go.emits_only P (go.call_with e f).
Proof. intros He w. unfold go.call_with, go.trace. destruct (f w). by repeat constructor. Qed.

Lemma emits_only_slice_from P s low : go.emits_only (W:=W) P (go.slice_from s low).
Proof. unfold go.slice_from. case_match; [apply emits_only_panic | apply emits_only_ret]. Qed.

Lemma emits_only_log P lvl fields msg :
  P (Log lvl fields msg) → go.emits_only (W:=W) P (go.log lvl fields msg).
Proof. apply emits_only_emit. Qed.

Lemma emits_only_log_Fatal {A} P fields msg :
  P (Log zerolog.FatalLevel fields msg) →
  go.emits_only (W:=W) (A:=A) P (go.log_Fatal fields msg).
Proof.
  intros H. apply emits_only_bind; [by apply emits_only_emit|].
  intros _. apply emits_only_exit.
Qed.

Lemma emits_only_for_each {A} P (l : list A) (body : A → go.M W unit) :
  (∀ x, go.emits_only P (body x)) → go.emits_only P (go.for_each l body).
Proof.
  intros H. induction l as [|x l IH]; cbn; [apply emits_only_ret|].
  apply emits_only_bind; [apply H | by intros _].
Qed.

Lemma emits_only_fold_each {A S} P (l : list A) (s : S) (body : S → A → go.M W S) :
  (∀ s x, go.emits_only P (body s x)) → go.emits_only P (go.fold_each l s body).
Proof.
  intros H. revert s. induction l as [|x l IH]; intros s; cbn; [apply emits_only_ret|].
  apply emits_only_bind; [apply H | done].
Qed.

End Traces.

(** Breaks a goal [go.emits_only P m] down along the structure of [m]. *)
Ltac emits_only_step :=
  first
    [ apply emits_only_ret
    | apply emits_only_panic
    | apply emits_only_exit
    | apply emits_only_block
    | apply emits_only_slice_from
    | apply emits_only_bind; [|intros ?]
    | apply emits_only_emit
    | apply emits_only_log
    | apply emits_only_log_Fatal
    | apply emits_only_call
    | apply emits_only_call_with; intros ?
    | apply emits_only_for_each; intros ?
    | apply emits_only_fold_each; intros ? ?
    | progress case_match ].

(** ** The plex target *)

Lemma last_index_from_le (s substr : string) (i best : Z) :
  strings.last_index_from s substr i best ≤ Z.max best (i + strings.len s).
Proof.
  revert i best. induction s as [|c s IH]; intros i best.
  - cbn. unfold strings.len. cbn. case_match; lia.
  - cbn [strings.last_index_from]. etrans; [apply IH|].
    unfold strings.len. cbn [String.length]. case_match; lia.
Qed.

Lemma LastIndex_le_len (s substr : string) : strings.LastIndex s substr ≤ strings.len s.
Proof.
  unfold strings.LastIndex. etrans; [apply last_index_from_le|].
  unfold strings.len. lia.
Qed.

Section PlexTarget.
Context {W : Type} {rt : plex.Runtime W}.
Implicit Types (t : plex.target) (scan : autoscan.Scan) (w : W).

Lemma getScanLibrary_none t folder :
  (∀ l, l ∈ plex.libraries t → strings.HasPrefix folder (plex.Path l) = false) →
  plex.getScanLibrary t folder
  = ([], Some (Opaque (folder +:+ ": failed determining libraries"))).
Proof.
  intros Hnone. unfold plex.getScanLibrary.
  assert (filter (λ l, strings.HasPrefix folder (plex.Path l) = true) (plex.libraries t) = [])
    as ->; [|done].
  induction (plex.libraries t) as [|l ls IH]; [done|].
  rewrite filter_cons_False.
  - apply IH. intros l' Hl'. apply Hnone. by right.
  - rewrite Hnone; [done | by left].
Qed.

Lemma getScanLibrary_some t folder :
  (∃ l, l ∈ plex.libraries t ∧ strings.HasPrefix folder (plex.Path l) = true) →
  ∃ libs, plex.getScanLibrary t folder = (libs, None).
Proof.
  intros (l & Hl & Hpre). unfold plex.getScanLibrary.
  destruct (filter _ (plex.libraries t)) as [|l' libs] eqn:Hf.
  - assert (l ∈ filter (λ l, strings.HasPrefix folder (plex.Path l) = true)
                       (plex.libraries t)) as Hin
      by (by apply list_elem_of_filter).
    rewrite Hf in Hin. by apply not_elem_of_nil in Hin.
  - by eexists.
Qed.

Lemma rcrefresh_panics (Data : gmap string string) (url : string) w err w1 :
  plex.http_Do url (plex.json_Marshal Data) w = (inr err, w1) →
  plex.rcrefresh Data url w
  = (go.Panicked (go.PanicError err), w1,
     [Println ["Json String"; plex.json_Marshal Data];
      HTTPPost url (plex.json_Marshal Data)]).
Proof.
  intros Hdo. unfold plex.rcrefresh, go.bind, go.emit, go.call, go.panic.
  by rewrite Hdo.
Qed.

(** C2: when no library path is a prefix of the rewritten folder, [Scan] logs
    one warning, calls nothing outside, and returns nil, which is what the
    processor sees of a scan that went well. *)
Theorem Scan_disclaims_with_nil t scan w :
  (∀ l, l ∈ plex.libraries t →
        strings.HasPrefix (plex.rewrite t (autoscan.Folder scan)) (plex.Path l) = false) →
  plex.Scan t scan w
  = (go.Done None, w,
     [Log zerolog.WarnLevel
          [zerolog.Err (Opaque (plex.rewrite t (autoscan.Folder scan)
                                +:+ ": failed determining libraries"))]
          "No target libraries found"]).
Proof.
  intros Hnone. unfold plex.Scan. by rewrite getScanLibrary_none.
Qed.

(** C9: when a library matches the rewritten folder and the POST to the first
    rclone endpoint fails in the transport, [rcrefresh] panics with that
    error and [Scan] panics instead of returning: with the error itself when
    the trimmed folder holds a slash, and in any case with some panic. *)
Theorem Scan_panics_when_refresh_fails t scan w err w1 :
  let scanFolder := plex.rewrite t (autoscan.Folder scan) in
  let s := strings.TrimPrefix scanFolder "/mnt/unionfs/Media" in
  let firstrequest : gmap string string := {[ "recursive" := "true"; "dir" := s ]} in
  (∃ l, l ∈ plex.libraries t ∧ strings.HasPrefix scanFolder (plex.Path l) = true) →
  plex.http_Do plex.refresh_url (plex.json_Marshal firstrequest) w = (inr err, w1) →
  go.result (plex.rcrefresh firstrequest plex.refresh_url w) = go.Panicked (go.PanicError err)
  ∧ (0 ≤ strings.LastIndex s "/" →
     go.result (plex.Scan t scan w) = go.Panicked (go.PanicError err))
  ∧ (∃ v, go.result (plex.Scan t scan w) = go.Panicked v).
Proof.
  intros scanFolder s firstrequest Hlib Hdo.
  apply getScanLibrary_some in Hlib as [libs Hlibs].
  pose proof (rcrefresh_panics firstrequest plex.refresh_url w err w1 Hdo) as Hrc.
  assert (0 ≤ strings.LastIndex s "/" →
          go.result (plex.Scan t scan w) = go.Panicked (go.PanicError err)) as Hpanic.
  { intros Hslash. unfold plex.Scan. fold scanFolder. rewrite Hlibs.
    unfold plex.refresh. fold s. unfold go.slice_from.
    pose proof (LastIndex_le_len s "/") as Hle.
    replace ((strings.LastIndex s "/" <? 0) || (strings.len s <? strings.LastIndex s "/"))
      with false by (symmetry; apply orb_false_iff; split; apply Z.ltb_ge; lia).
    fold firstrequest.
    unfold go.bind at 1 2 3 4 5. unfold go.emit, go.ret. cbn [fst snd].
    by rewrite Hrc. }
  split_and!; [by rewrite Hrc | done |].
  destruct (decide (0 ≤ strings.LastIndex s "/")) as [Hslash|Hslash].
  - eexists. by apply Hpanic.
  - exists (go.SliceBounds (strings.LastIndex s "/")).
    unfold plex.Scan. fold scanFolder. rewrite Hlibs.
    unfold plex.refresh. fold s. unfold go.slice_from.
    replace ((strings.LastIndex s "/" <? 0) || (strings.len s <? strings.LastIndex s "/"))
      with true by (symmetry; apply orb_true_iff; left; apply Z.ltb_lt; lia).
    reflexivity.
Qed.

(** C5 (amended): every scan request the plex target sends to its API names
    the rewritten folder, the target's rewriter applied to [scan.Folder] when
    [Scan] runs. *)
Theorem Scan_requests_name_rewritten_folder t scan w url path libID :
  APIScan url path libID ∈ go.trace (plex.Scan t scan w) →
  path = plex.rewrite t (autoscan.Folder scan).
Proof.
  set (scanFolder := plex.rewrite t (autoscan.Folder scan)).
  set (P := λ e : event, ∀ u p i, e = APIScan u p i → p = scanFolder).
  assert (go.emits_only P (plex.Scan t scan)) as Hall.
  { assert (∀ Data u, go.emits_only P (plex.rcrefresh Data u)) as Hrc.
    { intros Data u. unfold plex.rcrefresh. repeat emits_only_step; by intros ???. }
    assert (∀ libs, go.emits_only P (plex.send_scan_requests t scanFolder libs)) as Hsend.
    { induction libs as [|lib libs IH]; cbn [plex.send_scan_requests].
      - apply emits_only_ret.
      - repeat emits_only_step; try (by intros ???); try apply IH.
        intros u p i [= _ -> _]; done. }
    unfold plex.Scan. fold scanFolder.
    destruct (plex.getScanLibrary t scanFolder) as [libs [e|]].
    - repeat emits_only_step. by intros ???.
    - apply emits_only_bind; [|intros _; apply Hsend].
      unfold plex.refresh.
      repeat first [ apply Hrc | emits_only_step ]; by intros ???. }
  intros Hin. specialize (Hall w). rewrite Forall_forall in Hall.
  by apply (Hall _ Hin url path libID).
Qed.

End PlexTarget.


(** ** The driver loop *)

Lemma reprobed_app (pending : bool) (t1 t2 : list event) :
  main.reprobed pending (t1 ++ t2)
  = main.reprobed pending t1 && main.reprobed (main.pending_after pending t1) t2.
Proof.
  revert pending. induction t1 as [|e t1 IH]; intros pending; [done|].
  destruct e as [| | | | | | |[?|]| | | | |]; cbn; rewrite ?IH; try done.
  by rewrite andb_assoc.
Qed.

Lemma pending_after_app (pending : bool) (t1 t2 : list event) :
  main.pending_after pending (t1 ++ t2)
  = main.pending_after (main.pending_after pending t1) t2.
Proof.
  revert pending. induction t1 as [|e t1 IH]; intros pending; [done|].
  destruct e as [| | | | | | |[?|]| | | | |]; cbn; by rewrite ?IH.
Qed.

Section Driver.
Context {W : Type} {rt : main.Runtime W}.
Implicit Types (c : main.config) (targets : list main.Target) (w : W) (e : error).

(** Unfolds one pass of the loop down to the answers of the outside world. *)
Ltac run_pass :=
  unfold main.iteration, go.bind, go.call_with, go.log, go.log_Fatal, go.emit,
    go.block, go.exit, go.ret.

Lemma loop_S n c targets targetsAvailable w :
  main.loop (S n) c targets targetsAvailable w
  = go.bind (main.iteration c targets targetsAvailable)
            (λ ta, main.loop n c targets ta) w.
Proof. done. Qed.




Lemma pass_probe_ok c targets w0 w :
  main.proc_CheckAvailability targets w0 = (None, w) →
  main.iteration c targets false w0
  = ((main.iteration c targets true w).1.1, (main.iteration c targets true w).1.2,
     CheckAvailability None :: (main.iteration c targets true w).2).
Proof.
  intros Hp. run_pass. cbn. rewrite Hp. cbn.
  destruct (main.proc_Process targets w) as [[e|] w1]; cbn; [|done].
  repeat (case_match; cbn; try done).
Qed.

Lemma pass_unavailable c targets w e w1 :
  main.proc_Process targets w = (Some e, w1) →
  errors.Is e autoscan.ErrNoScans = false →
  errors.Is e autoscan.ErrAnchorUnavailable = false →
  errors.Is e autoscan.ErrTargetUnavailable = true →
  main.iteration c targets true w
  = (go.Done false, w1,
     [Process (Some e);
      Log zerolog.ErrorLevel [zerolog.Err e]
        "Not all targets are available, retrying in 15 seconds...";
      Sleep (15 * time.Second)]).
Proof.
  intros Hp H1 H2 Hu. run_pass. cbn. rewrite Hp. cbn.
  by rewrite H1, H2, Hu.
Qed.

(** An error that matches one of the two sentinels tried first is handled as
    that one: the pass leaves [targetsAvailable] as it found it. *)
Lemma pass_unavailable_shadowed c targets w e w1 :
  main.proc_Process targets w = (Some e, w1) →
  errors.Is e autoscan.ErrNoScans = true ∨ errors.Is e autoscan.ErrAnchorUnavailable = true →
  go.result (main.iteration c targets true w) = go.Done true.
Proof.
  intros Hp Hs. run_pass. unfold go.result. cbn. rewrite Hp. cbn.
  destruct (errors.Is e autoscan.ErrNoScans); cbn; [done|].
  destruct Hs as [? | ->]; done.
Qed.

Lemma pass_unclassified c targets w e w1 :
  main.proc_Process targets w = (Some e, w1) →
  errors.Is e autoscan.ErrNoScans = false →
  errors.Is e autoscan.ErrAnchorUnavailable = false →
  errors.Is e autoscan.ErrTargetUnavailable = false →
  errors.Is e autoscan.ErrFatal = false →
  main.iteration c targets true w
  = (go.Exited 1, w1,
     [Process (Some e);
      Log zerolog.FatalLevel [zerolog.Err e] "Failed processing targets"]).
Proof.
  intros Hp H1 H2 H3 H4. run_pass. cbn. rewrite Hp. cbn.
  by rewrite H1, H2, H3, H4.
Qed.

(** The monitor accepts one pass, and a probe is pending after it only if the
    pass left [targetsAvailable] false. *)
Lemma pass_reprobed c targets targetsAvailable w pending :
  (pending = true → targetsAvailable = false) →
  main.reprobed pending (go.trace (main.iteration c targets targetsAvailable w)) = true
  ∧ ∀ ta, go.result (main.iteration c targets targetsAvailable w) = go.Done ta →
          main.pending_after pending
            (go.trace (main.iteration c targets targetsAvailable w)) = true →
          ta = false.
Proof.
  intros Hinv. run_pass. unfold go.trace, go.result.
  destruct targetsAvailable; cbn.
  - assert (pending = false) as -> by (destruct pending; [by discriminate Hinv|done]).
    destruct (main.proc_Process targets w) as [[e|] w1]; cbn; [|by split].
    destruct (errors.Is e autoscan.ErrNoScans) eqn:H1; cbn; rewrite ?H1; [by split|].
    destruct (errors.Is e autoscan.ErrAnchorUnavailable) eqn:H2; cbn; rewrite ?H1, ?H2;
      [by split|].
    destruct (errors.Is e autoscan.ErrTargetUnavailable) eqn:H3; cbn; rewrite ?H1, ?H2, ?H3.
    { split; [done|]. by intros ta [= <-]. }
    destruct (errors.Is e autoscan.ErrFatal) eqn:H4; cbn; rewrite ?H1, ?H2, ?H3; by split.
  - destruct (main.proc_CheckAvailability targets w) as [[e0|] w0]; cbn.
    { destruct (errors.Is e0 autoscan.ErrFatal); cbn; [by split|].
      split; [done|]. by intros ta [= <-]. }
    destruct (main.proc_Process targets w0) as [[e|] w1]; cbn; [|by split].
    destruct (errors.Is e autoscan.ErrNoScans) eqn:H1; cbn; rewrite ?H1; [by split|].
    destruct (errors.Is e autoscan.ErrAnchorUnavailable) eqn:H2; cbn; rewrite ?H1, ?H2;
      [by split|].
    destruct (errors.Is e autoscan.ErrTargetUnavailable) eqn:H3; cbn; rewrite ?H1, ?H2, ?H3.
    { split; [done|]. by intros ta [= <-]. }
    destruct (errors.Is e autoscan.ErrFatal) eqn:H4; cbn; rewrite ?H1, ?H2, ?H3; by split.
Qed.

Lemma loop_reprobed n c targets targetsAvailable w pending :
  (pending = true → targetsAvailable = false) →
  main.reprobed pending (go.trace (main.loop n c targets targetsAvailable w)) = true.
Proof.
  revert targetsAvailable w pending.
  induction n as [|n IH]; intros ta w pending Hinv; [done|].
  rewrite loop_S.
  destruct (pass_reprobed c targets ta w pending Hinv) as [Hpass Hnext].
  unfold go.bind, go.trace, go.result in *.
  destruct (main.iteration c targets ta w) as [[[ta'| | |] w1] t1]; cbn in *; try done.
  specialize (IH ta' w1 (main.pending_after pending t1) (Hnext ta' eq_refl)).
  destruct (main.loop n c targets ta' w1) as [[o w2] t2]; cbn in *.
  by rewrite reprobed_app, Hpass, IH.
Qed.

End Driver.

Section DriverProperties.
Context {W : Type} {rt : main.Runtime W}.
Implicit Types (c : main.config) (targets : list main.Target) (w : W) (e : error).


(** C3: when [Process] returns an error that matches [ErrTargetUnavailable]
    and neither [ErrNoScans] nor [ErrAnchorUnavailable], which the switch
    tries first, the pass sets [targetsAvailable] to false; an error that
    matches one of those two as well leaves it true.  In every run of the
    loop no [Process] follows an answer of the first kind before a
    [CheckAvailability] has returned nil. *)
Theorem unavailable_target_is_reprobed c targets :
  (∀ w e w1,
     main.proc_Process targets w = (Some e, w1) →
     errors.Is e autoscan.ErrNoScans = false →
     errors.Is e autoscan.ErrAnchorUnavailable = false →
     errors.Is e autoscan.ErrTargetUnavailable = true →
     main.iteration c targets true w
     = (go.Done false, w1,
        [Process (Some e);
         Log zerolog.ErrorLevel [zerolog.Err e]
           "Not all targets are available, retrying in 15 seconds...";
         Sleep (15 * time.Second)]))
  ∧ (∀ w0 w e w1,
       main.proc_CheckAvailability targets w0 = (None, w) →
       main.proc_Process targets w = (Some e, w1) →
       errors.Is e autoscan.ErrNoScans = false →
       errors.Is e autoscan.ErrAnchorUnavailable = false →
       errors.Is e autoscan.ErrTargetUnavailable = true →
       go.result (main.iteration c targets false w0) = go.Done false)
  ∧ (∀ w e w1,
       main.proc_Process targets w = (Some e, w1) →
       errors.Is e autoscan.ErrTargetUnavailable = true →
       errors.Is e autoscan.ErrNoScans = true
       ∨ errors.Is e autoscan.ErrAnchorUnavailable = true →
       go.result (main.iteration c targets true w) = go.Done true)
  ∧ (∀ n targetsAvailable w,
       main.reprobed false (go.trace (main.loop n c targets targetsAvailable w)) = true).
Proof.
  split_and!.
  - intros w e w1. apply pass_unavailable.
  - intros w0 w e w1 Hc Hp H1 H2 Hu.
    by rewrite (pass_probe_ok _ _ _ _ Hc), (pass_unavailable _ _ _ _ _ Hp H1 H2 Hu).
  - intros w e w1 Hp _ Hs. by apply (pass_unavailable_shadowed _ _ _ e w1).
  - intros n ta w. by apply loop_reprobed.
Qed.

(** C7: when [Process] returns an error that is not nil and matches none of
    [ErrNoScans], [ErrAnchorUnavailable], [ErrTargetUnavailable] and
    [ErrFatal], the pass logs it with [log.Fatal], which ends the process with
    exit code 1; nothing sleeps and nothing is tried again. *)
Theorem unclassified_error_aborts c targets w e w1 :
  main.proc_Process targets w = (Some e, w1) →
  errors.Is e autoscan.ErrNoScans = false →
  errors.Is e autoscan.ErrAnchorUnavailable = false →
  errors.Is e autoscan.ErrTargetUnavailable = false →
  errors.Is e autoscan.ErrFatal = false →
  main.iteration c targets true w
  = (go.Exited 1, w1,
     [Process (Some e);
      Log zerolog.FatalLevel [zerolog.Err e] "Failed processing targets"])
  ∧ (∀ n, main.loop (S n) c targets true w
          = (go.Exited 1, w1,
             [Process (Some e);
              Log zerolog.FatalLevel [zerolog.Err e] "Failed processing targets"]))
  ∧ (∀ w0 n, main.proc_CheckAvailability targets w0 = (None, w) →
             main.loop (S n) c targets false w0
             = (go.Exited 1, w1,
                [CheckAvailability None; Process (Some e);
                 Log zerolog.FatalLevel [zerolog.Err e] "Failed processing targets"])).
Proof.
  intros Hp H1 H2 H3 H4.
  pose proof (pass_unclassified c targets w e w1 Hp H1 H2 H3 H4) as Hpass.
  split_and!; [done| |].
  - intros n. rewrite loop_S. by apply bind_exited.
  - intros w0 n Hc. rewrite loop_S. apply bind_exited.
    by rewrite (pass_probe_ok _ _ _ _ Hc), Hpass.
Qed.

End DriverProperties.

(** ** Target initialisation *)

Lemma isSupportedVersion_unsupported (v : string) :
  plex.isSupportedVersion v = negb (plex.unsupported v).
Proof.
  unfold plex.isSupportedVersion, plex.unsupported.
  destruct (strings.Split v ".") as [|major_s [|minor_s rest]]; [done|done|].
  cbn zeta. generalize (strconv.Atoi major_s).1 (strconv.Atoi minor_s).1.
  intros major minor.
  destruct (2 <=? major) eqn:H2, (major <? 1) eqn:H1, (major =? 1) eqn:He,
    (20 <=? minor) eqn:H20, (minor <? 20) eqn:Hm; cbn; try done; lia.
Qed.

Lemma fold_each_app {W A S} (l1 l2 : list A) (s : S) (body : S → A → go.M W S) (w : W) :
  go.fold_each (l1 ++ l2) s body w
  = go.bind (go.fold_each l1 s body) (λ s', go.fold_each l2 s' body) w.
Proof.
  revert s w. induction l1 as [|x l1 IH]; intros s w; cbn.
  - unfold go.bind, go.ret. by destruct (go.fold_each l2 s body w) as [[??]?].
  - unfold go.bind in *. destruct (body s x w) as [[[s'| | |] w1] t1]; try done.
    rewrite IH. destruct (go.fold_each l1 s' body w1) as [[[s''| | |] w2] t2]; try done.
    destruct (go.fold_each l2 s'' body w2) as [[o w3] t3]. by rewrite app_assoc.
Qed.

#[local] Existing Instance main.plex_runtime.

Section Startup.
Context {W : Type} {rt : main.Runtime W}.
Implicit Types (c : plex.Config) (w : W).

Lemma New_unsupported c w version w1 rewriter :
  plex.NewRewriter (plex.Rewrite c) = (rewriter, None) →
  plex.api_Version (plex.newAPIClient (plex.URL c) (plex.Token c)) w = ((version, None), w1) →
  plex.isSupportedVersion version = false →
  plex.New c w
  = (go.Done (None,
              Some (Errorf ("plex running unsupported version " +:+ version +:+ ": ")
                           autoscan.ErrFatal)),
     w1,
     [APIVersion (plex.URL c); Log zerolog.DebugLevel [] ("Plex version: " +:+ version)]).
Proof.
  intros Hrw Hv Hun. unfold plex.New. rewrite Hrw.
  unfold go.bind, go.call, go.log, go.emit, go.ret. rewrite Hv. cbn. by rewrite Hun.
Qed.

Lemma init_plex_targets_unsupported c w version w1 rewriter after targets :
  plex.NewRewriter (plex.Rewrite c) = (rewriter, None) →
  plex.api_Version (plex.newAPIClient (plex.URL c) (plex.Token c)) w = ((version, None), w1) →
  plex.isSupportedVersion version = false →
  go.result (main.init_plex_targets (c :: after) targets w) = go.Exited 1.
Proof.
  intros Hrw Hv Hun. unfold main.init_plex_targets. cbn [go.fold_each].
  unfold go.bind at 1 2. rewrite (New_unsupported _ _ _ _ _ Hrw Hv Hun). done.
Qed.

(** C4: when the Plex server reports a version that is not supported (its
    major part below 1, or 1 with a minor part below 20), [plex.New] returns
    an error that wraps [ErrFatal], and the loop that initialises the targets
    logs it with [log.Fatal] and ends the process with exit code 1, wherever
    the target stands in the list. *)
Theorem unsupported_version_aborts_startup c w version w1 rewriter :
  plex.NewRewriter (plex.Rewrite c) = (rewriter, None) →
  plex.api_Version (plex.newAPIClient (plex.URL c) (plex.Token c)) w = ((version, None), w1) →
  plex.unsupported version = true →
  (∃ e, go.result (plex.New c w) = go.Done (None, Some e)
        ∧ errors.Is e autoscan.ErrFatal = true)
  ∧ (∀ before after targets0 targets w0 tr,
       main.init_plex_targets before targets0 w0 = (go.Done targets, w, tr) →
       go.result (main.init_plex_targets (before ++ c :: after) targets0 w0) = go.Exited 1)
  ∧ (∀ (cfg : main.config) before after targets w0 tr,
       main.Plex (main.Targets cfg) = before ++ c :: after →
       main.init_plex_targets before [] w0 = (go.Done targets, w, tr) →
       go.result (main.init_targets cfg w0) = go.Exited 1).
Proof.
  intros Hrw Hv Hun.
  assert (plex.isSupportedVersion version = false) as Hno
    by (by rewrite isSupportedVersion_unsupported, Hun).
  assert (∀ before after targets0 targets w0 tr,
            main.init_plex_targets before targets0 w0 = (go.Done targets, w, tr) →
            go.result (main.init_plex_targets (before ++ c :: after) targets0 w0)
            = go.Exited 1) as Hloop.
  { intros before after targets0 targets w0 tr Hbefore.
    unfold main.init_plex_targets in *. rewrite fold_each_app.
    unfold go.bind at 1. rewrite Hbefore.
    pose proof (init_plex_targets_unsupported c w version w1 rewriter after targets
                  Hrw Hv Hno) as Hc.
    unfold main.init_plex_targets, go.result in Hc.
    destruct (go.fold_each (c :: after) targets _ w) as [[o w2] t2]. cbn in *. by subst. }
  split_and!.
  - eexists. by rewrite (New_unsupported _ _ _ _ _ Hrw Hv Hno).
  - done.
  - intros cfg before after targets w0 tr Hcfg Hbefore.
    unfold main.init_targets. rewrite Hcfg.
    specialize (Hloop before after [] targets w0 tr Hbefore).
    unfold go.bind at 1. unfold go.result in *.
    destruct (main.init_plex_targets (before ++ c :: after) [] w0) as [[o w2] t2].
    cbn in *. by subst.
Qed.

End Startup.

(** ** Strict decoding of the configuration *)






Section StrictDecoding.
Context {T : Type}.
Variable unmarshal : yaml.decoder T.
Implicit Types (FieldsMap : gmap string (yaml.decoder T)) (doneFields : gset string).








End StrictDecoding.

Section Structs.
Context {T : Type}.
Variables (type : string) (FieldsMap : gmap string (yaml.decoder T)) (zero : T).






End Structs.





Section ConfigDecoding.
Variable d : main.Decoders.












End ConfigDecoding.

Section ConfigProperties.
Context {W : Type} {rt : main.Runtime W}.





End ConfigProperties.

(* ================================================================== *)
(** * Further properties of the code *)
(* ================================================================== *)

(** ** How runs end *)

Section Endings.
Context {W : Type}.
Implicit Types (Q : runs.ending → Prop) (w : W).

Lemma ends_ret {A} Q (a : A) : Q runs.Returns → runs.ends (W:=W) Q (go.ret a).
Proof. by intros H w. Qed.

Lemma ends_bind {A B} Q (m : go.M W A) (k : A → go.M W B) :
  runs.ends Q m → (∀ a, runs.ends Q (k a)) → runs.ends Q (go.bind m k).
Proof.
  intros Hm Hk w. specialize (Hm w). unfold go.bind, go.result in *.
  destruct (m w) as [[[a| | |] w1] t1]; cbn in *; try done.
  specialize (Hk a w1). unfold go.result in Hk.
  by destruct (k a w1) as [[o w2] t2].
Qed.

Lemma ends_emit Q e : Q runs.Returns → runs.ends (W:=W) Q (go.emit e).
Proof. by intros H w. Qed.

Lemma ends_panic {A} Q v : Q (runs.Panics v) → runs.ends (W:=W) (A:=A) Q (go.panic v).
Proof. by intros H w. Qed.

Lemma ends_exit {A} Q c : Q (runs.Exits c) → runs.ends (W:=W) (A:=A) Q (go.exit c).
Proof. by intros H w. Qed.

Lemma ends_block {A} Q : Q runs.Blocks → runs.ends (W:=W) (A:=A) Q go.block.
Proof. by intros H w. Qed.

Lemma ends_call {A} Q e (f : W → A * W) : Q runs.Returns → runs.ends Q (go.call e f).
Proof. intros H w. unfold go.call, go.result. by destruct (f w). Qed.

Lemma ends_call_with {A} Q (e : A → event) (f : W → A * W) :
  Q runs.Returns → runs.ends Q (go.call_with e f).
Proof. intros H w. unfold go.call_with, go.result. by destruct (f w). Qed.

Lemma ends_slice_from Q s low :
  Q runs.Returns → Q (runs.Panics (go.SliceBounds low)) →
  runs.ends (W:=W) Q (go.slice_from s low).
Proof.
  intros Hr Hp. unfold go.slice_from. case_match; [by apply ends_panic | by apply ends_ret].
Qed.

Lemma ends_log Q lvl fields msg :
  Q runs.Returns → runs.ends (W:=W) Q (go.log lvl fields msg).
Proof. apply ends_emit. Qed.

Lemma ends_log_Fatal {A} Q fields msg :
  Q (runs.Exits 1) → runs.ends (W:=W) (A:=A) Q (go.log_Fatal fields msg).
Proof. by intros H w. Qed.

Lemma ends_for_each {A} Q (l : list A) (body : A → go.M W unit) :
  Q runs.Returns → (∀ x, runs.ends Q (body x)) → runs.ends Q (go.for_each l body).
Proof.
  intros Hr H. induction l as [|x l IH]; cbn; [by apply ends_ret|].
  apply ends_bind; [apply H | by intros _].
Qed.

Lemma ends_fold_each {A S} Q (l : list A) (s : S) (body : S → A → go.M W S) :
  Q runs.Returns → (∀ s x, runs.ends Q (body s x)) → runs.ends Q (go.fold_each l s body).
Proof.
  intros Hr H. revert s. induction l as [|x l IH]; intros s; cbn; [by apply ends_ret|].
  apply ends_bind; [apply H | done].
Qed.

End Endings.

(** Breaks a goal [runs.ends Q m] down along the structure of [m]. *)
Ltac ends_step :=
  first
    [ apply ends_ret
    | apply ends_panic
    | apply ends_exit
    | apply ends_block
    | apply ends_slice_from
    | apply ends_bind; [|intros ?]
    | apply ends_emit
    | apply ends_log
    | apply ends_log_Fatal
    | apply ends_call
    | apply ends_call_with
    | apply ends_for_each; [|intros ?]
    | apply ends_fold_each; [|intros ? ?]
    | progress case_match ].

(** ** More on strings and versions *)

Lemma prefix_byte (c0 c : ascii) (s : string) :
  String.prefix (String c0 "") (String c s) = Ascii.eqb c0 c.
Proof.
  destruct (Ascii.eqb_spec c0 c) as [<-|Hne].
  - cbn [String.prefix]. destruct (ascii_dec c0 c0); [by destruct s|done].
  - cbn [String.prefix]. by destruct (ascii_dec c0 c).
Qed.

Lemma last_index_from_absent (c0 : ascii) (s : string) (i best : Z) :
  strings.count_byte c0 s = 0%nat →
  strings.last_index_from s (String c0 "") i best = best.
Proof.
  revert i best. induction s as [|c s IH]; intros i best; [done|].
  cbn [strings.count_byte strings.last_index_from]. rewrite prefix_byte.
  destruct (Ascii.eqb c0 c); [done|]. intros H. by apply IH.
Qed.

(** Splitting at dots goes through a dot: the parts of [a.b] are those of
    [a] followed by those of [b]. *)
Lemma split_go_dot_app (a b cur : string) :
  strings.split_go "." 0 cur (a +:+ "." +:+ b)
  = strings.split_go "." 0 cur a ++ strings.split_go "." 0 "" b.
Proof.
  revert cur. induction a as [|c a IH]; intros cur.
  - change ("" +:+ "." +:+ b) with (String "." b).
    cbn [strings.split_go]. by rewrite prefix_dot.
  - change (String c a +:+ "." +:+ b) with (String c (a +:+ "." +:+ b)).
    cbn [strings.split_go]. rewrite !prefix_dot.
    destruct (Ascii.eqb "." c); cbn [String.length Nat.sub]; by rewrite IH.
Qed.

(** X9: whatever follows the second dot of a version is not looked at: a
    version of two parts or more is supported exactly when it is with
    [.rest] added. *)
Theorem isSupportedVersion_ignores_later_parts (v rest : string) :
  (2 ≤ length (strings.Split v "."))%nat →
  plex.isSupportedVersion (v +:+ "." +:+ rest) = plex.isSupportedVersion v.
Proof.
  intros Hlen. unfold plex.isSupportedVersion, strings.Split in *.
  rewrite split_go_dot_app.
  destruct (strings.split_go "." 0 "" v) as [|major_s [|minor_s more]]; cbn in *; [lia|lia|done].
Qed.

Lemma ParseInt_range (s : string) :
  (strconv.ParseInt s).2 = Some strconv.ErrRange →
  (strconv.ParseInt s).1 = 2 ^ 63 - 1 ∨ (strconv.ParseInt s).1 = - 2 ^ 63.
Proof.
  unfold strconv.ParseInt. destruct s as [|c s]; [done|].
  destruct (strconv.ParseUint _) as [un [[]|]]; cbn; try done;
    repeat (case_match; cbn; try done); auto.
Qed.

Lemma Atoi_range (s : string) :
  (strconv.Atoi s).2 = Some strconv.ErrRange →
  (strconv.Atoi s).1 = 2 ^ 63 - 1 ∨ (strconv.Atoi s).1 = - 2 ^ 63.
Proof.
  unfold strconv.Atoi.
  destruct ((0 <? String.length s)%nat && (String.length s <? 19)%nat);
    [|apply ParseInt_range].
  destruct s as [|c s]; [done|].
  destruct (_ && _); [done|]. by destruct (strconv.fast_digits _ 0).
Qed.

(** X10: the range error of [Atoi] is dropped like the syntax error, but its
    value is not 0: a major part too large for an [int] reads as the largest
    [int], and the version is supported whatever its minor part. *)
Theorem isSupportedVersion_accepts_overflowing_major (v major_s minor_s : string)
    (rest : list string) :
  strings.Split v "." = major_s :: minor_s :: rest →
  (strconv.Atoi major_s).2 = Some strconv.ErrRange →
  0 ≤ (strconv.Atoi major_s).1 →
  (strconv.Atoi major_s).1 = 2 ^ 63 - 1 ∧ plex.isSupportedVersion v = true.
Proof.
  intros Hparts Hrange Hpos.
  destruct (Atoi_range _ Hrange) as [Hmax|Hmin]; [|lia].
  split; [done|]. rewrite (isSupportedVersion_parts _ _ _ _ Hparts), Hmax. done.
Qed.

(** ** More on the plex target *)

Lemma scan_requests_app (t1 t2 : list event) :
  runs.scan_requests (t1 ++ t2) = runs.scan_requests t1 ++ runs.scan_requests t2.
Proof.
  induction t1 as [|e t1 IH]; [done|]. destruct e; cbn; by rewrite ?IH.
Qed.

Lemma scan_requests_none (t : list event) :
  Forall (λ e, runs.is_APIScan e = false) t → runs.scan_requests t = [].
Proof. induction 1 as [|e t He _ IH]; [done|]. by destruct e. Qed.

Section PlexMore.
Context {W : Type} {rt : plex.Runtime W}.
Implicit Types (t : plex.target) (scan : autoscan.Scan) (w : W) (c : plex.Config).

(** What [New] returns. *)
Lemma New_result c w :
  ∃ r, go.result (plex.New c w) = go.Done r
       ∧ ((∃ e, r = (None, Some e))
          ∨ (∃ t, r = (Some t, None)
                  ∧ plex.url t = plex.URL c ∧ plex.token t = plex.Token c
                  ∧ plex.api t = plex.newAPIClient (plex.URL c) (plex.Token c)
                  ∧ plex.rewrite t = (plex.NewRewriter (plex.Rewrite c)).1
                  ∧ ∃ w1 w2, plex.api_Libraries (plex.api t) w1
                             = ((plex.libraries t, None), w2))).
Proof.
  unfold plex.New. destruct (plex.NewRewriter (plex.Rewrite c)) as [rw [e|]] eqn:Hrw.
  { eexists. split; [done|]. left. by eexists. }
  unfold go.bind, go.call, go.log, go.emit, go.ret, go.result.
  destruct (plex.api_Version _ w) as [[version [e|]] w1]; cbn.
  { eexists. split; [done|]. left. by eexists. }
  destruct (plex.isSupportedVersion version); cbn.
  - destruct (plex.api_Libraries _ w1) as [[libs [e|]] w2] eqn:Hlibs; cbn.
    + eexists. split; [done|]. left. by eexists.
    + eexists. split; [done|]. right. eexists. split_and!; try done. by exists w1, w2.
  - eexists. split; [done|]. left. by eexists.
Qed.

(** X1: [New] always returns, and with exactly one of a target and an error.
    The target it returns carries the URL and token of the configuration, the
    rewriter built from its rules and the libraries the server listed. *)
Theorem New_gives_target_or_error c w :
  ∃ r, go.result (plex.New c w) = go.Done r
       ∧ ((∃ e, r = (None, Some e))
          ∨ (∃ t, r = (Some t, None)
                  ∧ plex.url t = plex.URL c ∧ plex.token t = plex.Token c
                  ∧ plex.api t = plex.newAPIClient (plex.URL c) (plex.Token c)
                  ∧ plex.rewrite t = (plex.NewRewriter (plex.Rewrite c)).1
                  ∧ ∃ w1 w2, plex.api_Libraries (plex.api t) w1
                             = ((plex.libraries t, None), w2))).
Proof. apply New_result. Qed.

(** X2: [New] asks the server for its libraries only after the server has
    reported a version that is supported. *)
Theorem New_lists_libraries_of_supported_servers_only c w url :
  APILibraries url ∈ go.trace (plex.New c w) →
  ∃ version w1,
    plex.api_Version (plex.newAPIClient (plex.URL c) (plex.Token c)) w
    = ((version, None), w1)
    ∧ plex.isSupportedVersion version = true.
Proof.
  unfold plex.New. destruct (plex.NewRewriter (plex.Rewrite c)) as [rw [e|]].
  { intros H. by apply not_elem_of_nil in H. }
  unfold go.bind, go.call, go.log, go.emit, go.ret, go.trace.
  destruct (plex.api_Version _ w) as [[version [e|]] w1] eqn:Hv; cbn.
  { intros H. apply elem_of_cons in H as [?|H]; [done|]. by apply not_elem_of_nil in H. }
  destruct (plex.isSupportedVersion version) eqn:Hs; cbn.
  - intros _. by exists version, w1.
  - intros H. repeat (apply elem_of_cons in H as [?|H]; [done|]).
    by apply not_elem_of_nil in H.
Qed.

(** What [getScanLibrary] returns. *)
Lemma getScanLibrary_result t folder :
  (∀ l, l ∈ (plex.getScanLibrary t folder).1
        ↔ l ∈ plex.libraries t ∧ strings.HasPrefix folder (plex.Path l) = true)
  ∧ (plex.getScanLibrary t folder).1 `sublist_of` plex.libraries t
  ∧ ((plex.getScanLibrary t folder).2 = None
     ↔ ∃ l, l ∈ plex.libraries t ∧ strings.HasPrefix folder (plex.Path l) = true)
  ∧ (∀ l, l ∈ plex.libraries t → plex.Path l = "" →
          l ∈ (plex.getScanLibrary t folder).1).
Proof.
  assert (∀ l, l ∈ (plex.getScanLibrary t folder).1
               ↔ l ∈ plex.libraries t ∧ strings.HasPrefix folder (plex.Path l) = true)
    as Hmem.
  { intros l. unfold plex.getScanLibrary.
    destruct (filter _ (plex.libraries t)) as [|l' libs] eqn:Hf; cbn.
    - split; [by intros ?%not_elem_of_nil|].
      intros [Hl Hp]. rewrite <- Hf. by apply list_elem_of_filter.
    - rewrite <- Hf, list_elem_of_filter. tauto. }
  split_and!; [done| | |].
  - unfold plex.getScanLibrary.
    destruct (filter _ (plex.libraries t)) as [|l' libs] eqn:Hf; cbn.
    + apply sublist_nil_l.
    + rewrite <- Hf. apply sublist_filter.
  - split.
    + intros Hnone. unfold plex.getScanLibrary in Hnone.
      destruct (filter _ (plex.libraries t)) as [|l' libs] eqn:Hf; [done|].
      assert (l' ∈ filter (λ l, strings.HasPrefix folder (plex.Path l) = true)
                          (plex.libraries t)) as Hin by (rewrite Hf; left).
      apply list_elem_of_filter in Hin as [Hp Hin]. by exists l'.
    + intros Hl. by destruct (getScanLibrary_some t folder Hl) as [libs ->].
  - intros l Hl Hpath. apply Hmem. split; [done|].
    unfold strings.HasPrefix. rewrite Hpath. by destruct folder.
Qed.

(** X3: the libraries [getScanLibrary] returns are those of the target whose
    path is a prefix of the folder, in the order of the target, and it
    returns an error exactly when there is none; a library with an empty
    path takes every folder. *)
Theorem getScanLibrary_selects_by_prefix t folder :
  (∀ l, l ∈ (plex.getScanLibrary t folder).1
        ↔ l ∈ plex.libraries t ∧ strings.HasPrefix folder (plex.Path l) = true)
  ∧ (plex.getScanLibrary t folder).1 `sublist_of` plex.libraries t
  ∧ ((plex.getScanLibrary t folder).2 = None
     ↔ ∃ l, l ∈ plex.libraries t ∧ strings.HasPrefix folder (plex.Path l) = true)
  ∧ (∀ l, l ∈ plex.libraries t → plex.Path l = "" →
          l ∈ (plex.getScanLibrary t folder).1).
Proof. apply getScanLibrary_result. Qed.

(** X4: when a library takes the rewritten folder and what is left of it
    after [/mnt/unionfs/Media] holds no slash, [Scan] panics on its own slice
    [s[-1:]]: it has then sent no request at all, neither to rclone nor to
    Plex. *)
Theorem Scan_panics_on_folder_without_slash t scan w :
  let scanFolder := plex.rewrite t (autoscan.Folder scan) in
  let s := strings.TrimPrefix scanFolder "/mnt/unionfs/Media" in
  (∃ l, l ∈ plex.libraries t ∧ strings.HasPrefix scanFolder (plex.Path l) = true) →
  strings.count_byte "/" s = 0%nat →
  plex.Scan t scan w
  = (go.Panicked (go.SliceBounds (-1)), w, [Println ["Trimmed String:"; s]]).
Proof.
  intros scanFolder s Hlib Hslash.
  apply getScanLibrary_some in Hlib as [libs Hlibs].
  unfold plex.Scan. fold scanFolder. rewrite Hlibs.
  unfold plex.refresh. fold s. unfold strings.LastIndex.
  rewrite (last_index_from_absent "/" s 0 (-1) Hslash).
  reflexivity.
Qed.

Lemma send_scan_requests_spec t scanFolder (libs : list plex.library) w :
  ∃ (k : nat) (r : option error),
    go.result (plex.send_scan_requests t scanFolder libs w) = go.Done r
    ∧ runs.scan_requests (go.trace (plex.send_scan_requests t scanFolder libs w))
      = (λ lib, (plex.baseURL (plex.api t), scanFolder, plex.ID lib)) <$> take k libs
    ∧ (r = None → k = length libs)
    ∧ (∀ e, r = Some e →
            ∃ lib w0 w1, lib ∈ libs
                         ∧ plex.api_Scan (plex.api t) scanFolder (plex.ID lib) w0
                           = (Some e, w1)).
Proof.
  revert w. induction libs as [|lib libs IH]; intros w.
  - exists 0%nat, None. by split_and!.
  - cbn [plex.send_scan_requests].
    unfold go.bind, go.call, go.log, go.emit, go.ret, go.result, go.trace in *.
    destruct (plex.api_Scan (plex.api t) scanFolder (plex.ID lib) w) as [[e|] w1] eqn:Hscan;
      cbn.
    + exists 1%nat, (Some e). split_and!; [done|done|done|].
      intros e' [= <-]. exists lib, w, w1. split; [by left|done].
    + destruct (IH w1) as (k & r & Hres & Hreq & Hnil & Herr).
      destruct (plex.send_scan_requests t scanFolder libs w1) as [[o w2] t2]. cbn in *.
      subst o. exists (S k), r. split_and!; [done| | |].
      * cbn. by rewrite Hreq.
      * intros Hr. cbn. by rewrite (Hnil Hr).
      * intros e Hr. destruct (Herr e Hr) as (lib' & w0 & w1' & Hin & Hs).
        exists lib', w0, w1'. split; [by right|done].
Qed.

Lemma refresh_sends_no_scan_request scanFolder :
  go.emits_only (λ e, runs.is_APIScan e = false) (plex.refresh scanFolder).
Proof.
  assert (∀ Data u, go.emits_only (λ e, runs.is_APIScan e = false) (plex.rcrefresh Data u))
    as Hrc.
  { intros Data u. unfold plex.rcrefresh. repeat emits_only_step; done. }
  unfold plex.refresh. repeat first [ apply Hrc | emits_only_step ]; done.
Qed.

(** X5: [Scan] asks Plex to scan the rewritten folder once for each library
    that takes it, in the order of the target, and stops at the first
    request that fails: the requests sent are the first few of that list,
    and all of it when [Scan] returns nil. *)
Theorem Scan_sends_one_request_per_library t scan w :
  let scanFolder := plex.rewrite t (autoscan.Folder scan) in
  let wanted :=
    (λ lib, (plex.baseURL (plex.api t), scanFolder, plex.ID lib))
      <$> (plex.getScanLibrary t scanFolder).1 in
  (∃ k, runs.scan_requests (go.trace (plex.Scan t scan w)) = take k wanted)
  ∧ (go.result (plex.Scan t scan w) = go.Done None →
     runs.scan_requests (go.trace (plex.Scan t scan w)) = wanted).
Proof.
  intros scanFolder wanted. subst wanted. unfold plex.Scan. fold scanFolder.
  destruct (plex.getScanLibrary t scanFolder) as [libs [e|]] eqn:Hlibs.
  { assert (libs = []) as ->.
    { unfold plex.getScanLibrary in Hlibs. by case_match; simplify_eq. }
    split; [by exists 0%nat|done]. }
  cbn [fst].
  pose proof (refresh_sends_no_scan_request scanFolder w) as Hquiet.
  apply scan_requests_none in Hquiet.
  unfold go.bind, go.result, go.trace in *.
  destruct (plex.refresh scanFolder w) as [[[[]| | |] w1] t1]; cbn in *;
    try (split; [by exists 0%nat; rewrite Hquiet, take_0 | done]).
  destruct (send_scan_requests_spec t scanFolder libs w1) as (k & r & Hres & Hreq & Hnil & _).
  unfold go.result, go.trace in *.
  destruct (plex.send_scan_requests t scanFolder libs w1) as [[o w2] t2]. cbn in *.
  rewrite scan_requests_app, Hquiet, Hreq. cbn. split.
  - exists k. by rewrite fmap_take.
  - intros ->. injection Hres as <-. by rewrite (Hnil eq_refl), firstn_all.
Qed.

(** X6: [Scan] makes no error of its own: an error it returns is one the API
    client returned for the scan of the rewritten folder in a library that
    takes it. *)
Theorem Scan_returns_errors_of_the_API_only t scan w e :
  go.result (plex.Scan t scan w) = go.Done (Some e) →
  ∃ lib w0 w1,
    lib ∈ plex.libraries t
    ∧ strings.HasPrefix (plex.rewrite t (autoscan.Folder scan)) (plex.Path lib) = true
    ∧ plex.api_Scan (plex.api t) (plex.rewrite t (autoscan.Folder scan)) (plex.ID lib) w0
      = (Some e, w1).
Proof.
  unfold plex.Scan. set (scanFolder := plex.rewrite t (autoscan.Folder scan)).
  pose proof (proj1 (getScanLibrary_result t scanFolder)) as Hmem.
  destruct (plex.getScanLibrary t scanFolder) as [libs [e'|]]; [done|].
  unfold go.bind, go.result.
  destruct (plex.refresh scanFolder w) as [[[[]| | |] w1] t1]; cbn; try done.
  destruct (send_scan_requests_spec t scanFolder libs w1) as (k & r & Hres & _ & _ & Herr).
  unfold go.result in Hres.
  destruct (plex.send_scan_requests t scanFolder libs w1) as [[o w2] t2]. cbn in *.
  intros ->. injection Hres as <-.
  destruct (Herr e eq_refl) as (lib & w0 & w1' & Hin & Hs).
  apply Hmem in Hin as [Hin Hp]. by exists lib, w0, w1'.
Qed.

End PlexMore.

(** ** More on the driver loop *)

Section LoopMore.
Context {W : Type} {rt : main.Runtime W}.
Implicit Types (c : main.config) (targets : list main.Target) (w : W).

(** Unfolds one pass of the loop down to the answers of the outside world. *)
Ltac open_pass :=
  unfold main.iteration, go.bind, go.call_with, go.log, go.log_Fatal, go.emit,
    go.block, go.exit, go.ret, go.result, go.trace.

(** Goes through every way a pass can take. *)
Ltac each_dispatch targets w :=
  let e := fresh "e" in
  let w1 := fresh "w" in
  destruct (main.proc_Process targets w) as [[e|] w1] eqn:?; cbn;
  [ destruct (errors.Is e autoscan.ErrNoScans) eqn:?; cbn;
    [| destruct (errors.Is e autoscan.ErrAnchorUnavailable) eqn:?; cbn;
       [| destruct (errors.Is e autoscan.ErrTargetUnavailable) eqn:?; cbn;
          [| destruct (errors.Is e autoscan.ErrFatal) eqn:?; cbn ]]]
  | ].

Ltac each_pass c targets w :=
  let e0 := fresh "e" in
  let w0 := fresh "w" in
  lazymatch goal with
  | |- context [main.proc_CheckAvailability targets w] =>
      destruct (main.proc_CheckAvailability targets w) as [[e0|] w0] eqn:?; cbn;
      [ destruct (errors.Is e0 autoscan.ErrFatal) eqn:?; cbn
      | each_dispatch targets w0 ]
  | _ => each_dispatch targets w
  end.

(** X11: a pass that returns has slept exactly once, for [ScanDelay] when
    [Process] returned nil and for 15 seconds otherwise; a pass that blocks
    or ends the process has not slept.  The loop never spins. *)
Theorem every_pass_sleeps_once c targets targetsAvailable w :
  runs.sleeps (go.trace (main.iteration c targets targetsAvailable w))
  = match go.result (main.iteration c targets targetsAvailable w) with
    | go.Done _ =>
        [if existsb runs.is_Process_nil
              (go.trace (main.iteration c targets targetsAvailable w))
         then main.ScanDelay c else 15 * time.Second]
    | _ => []
    end.
Proof.
  open_pass. destruct targetsAvailable; cbn; each_pass c targets w; done.
Qed.

(** X12: [targetsAvailable] is set by the probe and cleared by the dispatch
    alone: a pass leaves it true only if it was true or [CheckAvailability]
    returned nil in the pass, and a pass that found it true leaves it false
    only if [Process] returned an error that matches [ErrTargetUnavailable]. *)
Theorem targetsAvailable_follows_the_targets c targets targetsAvailable w ta :
  go.result (main.iteration c targets targetsAvailable w) = go.Done ta →
  (ta = true →
   targetsAvailable = true
   ∨ CheckAvailability None ∈ go.trace (main.iteration c targets targetsAvailable w))
  ∧ (targetsAvailable = true → ta = false →
     ∃ e, Process (Some e) ∈ go.trace (main.iteration c targets targetsAvailable w)
          ∧ errors.Is e autoscan.ErrTargetUnavailable = true).
Proof.
  open_pass. destruct targetsAvailable; cbn; each_pass c targets w;
    intros [= <-]; (split; [intros ?|intros ? ?]); try done;
    try (by left); try (by right; left).
  eexists. split; [by left|done].
Qed.

End LoopMore.

(** ** More on startup *)

Lemma quiet_app (t1 t2 : list event) :
  Forall (λ e, main.is_dispatch_call e = false) t1 →
  runs.quiet_until_started t2 = true →
  runs.quiet_until_started (t1 ++ t2) = true.
Proof.
  intros H1 H2. induction H1 as [|e t1 He _ IH]; [done|].
  cbn. rewrite He, IH. by rewrite orb_true_r.
Qed.

Lemma exit_code_of_startup (code : Z) :
  runs.startup_failure_or_stall (runs.Exits code) → code = 1.
Proof. by destruct code as [|[]|]. Qed.

Section StartupMore.
Context {W : Type} {rt : main.Runtime W}.
Implicit Types (c : main.config) (cli : main.Cli) (w : W).

Lemma quiet_bind {A B} (m : go.M W A) (k : A → go.M W B) w :
  go.emits_only (λ e, main.is_dispatch_call e = false) m →
  (∀ a w', runs.quiet_until_started (go.trace (k a w')) = true) →
  runs.quiet_until_started (go.trace (go.bind m k w)) = true.
Proof.
  intros Hm Hk. specialize (Hm w). unfold go.bind, go.trace in *.
  destruct (m w) as [[[a| | |] w1] t1]; cbn in *;
    try (rewrite <- (app_nil_r t1); by apply quiet_app).
  specialize (Hk a w1). destruct (k a w1) as [[o w2] t2]. cbn in *. by apply quiet_app.
Qed.

Lemma New_emits (P : event → Prop) (t : plex.Config) :
  (∀ u, P (APIVersion u)) → (∀ u, P (APILibraries u)) →
  (∀ fields msg, P (Log zerolog.DebugLevel fields msg)) →
  go.emits_only P (plex.New t).
Proof.
  intros H1 H2 H3. unfold plex.New. repeat emits_only_step; auto.
Qed.

Lemma New_returns (Q : runs.ending → Prop) (t : plex.Config) :
  Q runs.Returns → runs.ends Q (plex.New t).
Proof. intros H. unfold plex.New. repeat ends_step; auto. Qed.

Lemma loop_emits (P : event → Prop) n c targets targetsAvailable :
  (∀ r, P (CheckAvailability r)) → (∀ r, P (Process r)) → (∀ d, P (Sleep d)) →
  (∀ fields msg, P (Log zerolog.ErrorLevel fields msg)) →
  (∀ fields msg, P (Log zerolog.TraceLevel fields msg)) →
  (∀ fields msg, P (Log zerolog.FatalLevel fields msg)) →
  go.emits_only P (main.loop n c targets targetsAvailable).
Proof.
  intros H1 H2 H3 H4 H5 H6. revert targetsAvailable.
  induction n as [|n IH]; intros ta; cbn [main.loop]; [apply emits_only_ret|].
  apply emits_only_bind; [|done].
  unfold main.iteration. repeat emits_only_step; auto.
Qed.

Lemma loop_ends (Q : runs.ending → Prop) n c targets targetsAvailable :
  Q runs.Returns → Q runs.Blocks → Q (runs.Exits 1) →
  runs.ends Q (main.loop n c targets targetsAvailable).
Proof.
  intros H1 H2 H3. revert targetsAvailable.
  induction n as [|n IH]; intros ta; cbn [main.loop]; [by apply ends_ret|].
  apply ends_bind; [|done].
  unfold main.iteration. repeat ends_step; auto.
Qed.

(** Unfolds the stages of [main.start]. *)
Ltac open_start :=
  unfold main.start, main.start_daemon_triggers, main.register_http_triggers,
    main.init_targets, main.init_plex_targets, main.init_emby_targets,
    main.fatal_if, main.mux_Handle.

(** X14: the warning about webhooks without authentication is logged only
    under the condition of lines 187-188: when that condition is false,
    startup, from [processor.New] to the line "Processor started", logs no
    warning, neither in [main] nor in [plex.New]. *)
Theorem no_warning_without_its_condition cli c w :
  main.webhooks_without_authentication c = false →
  existsb main.is_warning (go.trace (main.start cli c 0 w)) = false.
Proof.
  intros Hcond.
  assert (go.emits_only (λ e, main.is_warning e = false) (main.start cli c 0)) as Hall.
  { open_start. rewrite Hcond.
    repeat first
      [ apply loop_emits; try done
      | apply New_emits; try done
      | emits_only_step ]; done. }
  specialize (Hall w).
  induction Hall as [|e t He _ IH]; [done|]. cbn. by rewrite He, IH.
Qed.

(** X15: no target is probed or dispatched to before startup is over: in
    every run, no [CheckAvailability] and no [Process] comes before the line
    "Processor started", and none at all when startup fails. *)
Theorem targets_are_left_alone_until_started cli c n w :
  runs.quiet_until_started (go.trace (main.start cli c n w)) = true.
Proof.
  assert (∀ t, go.emits_only (λ e, main.is_dispatch_call e = false) (plex.New t)) as HNew.
  { intros t. by apply New_emits. }
  unfold main.start.
  do 9 (apply quiet_bind;
        [ open_start; repeat first [ apply HNew | emits_only_step ]; done
        | intros ? ? ]).
  unfold go.bind, go.log, go.emit, go.trace. cbn.
  match goal with
  | |- context [main.loop ?n ?c ?ts ?b ?w0] => by destruct (main.loop n c ts b w0) as [[??]?]
  end.
Qed.

(** How [main.run] may end. *)
Lemma run_ends cli n :
  runs.ends runs.startup_failure_or_stall (main.run cli n).
Proof.
  unfold main.run, main.load_config. open_start.
  repeat first
    [ apply loop_ends; try done
    | apply New_returns; try done
    | ends_step ]; done.
Qed.

(** X17: when [main] ends the process by an exit call ([app.Exit],
    [os.Exit], [log.Fatal]), the code is 0 for [--version] alone, the one
    [kong.Parse] chose when it ends the process itself, and 1 in every other
    case.  (A panic is no exit call.) *)
Theorem main_exit_codes n w code :
  go.result (main.main n w) = go.Exited code →
  (code = 0 ∧ ∃ w1, main.kong_Parse w = (main.VersionFlag, w1))
  ∨ (∃ w1, main.kong_Parse w = (main.ParseExit code, w1))
  ∨ code = 1.
Proof.
  unfold main.main, go.bind at 1, go.call, go.result.
  destruct (main.kong_Parse w) as [[code'| |cli] w1] eqn:Hparse; cbn.
  - intros [= <-]. right. left. by exists w1.
  - intros [= <-]. left. split; [done|by exists w1].
  - unfold go.bind at 1. destruct (main.ctx_Validate w1) as [[e|] w2]; cbn.
    { intros [= <-]. by right; right. }
    pose proof (run_ends cli n w2) as Hrun. unfold go.result in Hrun.
    destruct (main.run cli n w2) as [[o w3] t3]. cbn in *.
    intros ->. right; right. by apply exit_code_of_startup.
Qed.

End StartupMore.

Section StartupOrder.
Context {W : Type} {rt : main.Runtime W}.
Implicit Types (c : main.config) (w : W).

Lemma lidarr_clash_panics (l : list lidarr.Config) (mux : gset string) w :
  (∀ t w', (main.lidarr_New t w').1 = None) →
  "/triggers/manual" ∈ mux →
  (∃ t, t ∈ l ∧ lidarr.Name t = "manual") →
  ∃ pattern,
    go.result
      (go.fold_each l mux (λ mux t,
         err <- go.call (Call "lidarr.New") (main.lidarr_New t) ;;
         main.fatal_if err [zerolog.Str "trigger" (lidarr.Name t)]
           "Failed initialising trigger" ;;
         main.mux_Handle mux ("/triggers/" +:+ lidarr.Name t)) w)
    = go.Panicked (go.MultipleRegistrations pattern).
Proof.
  intros HNew. revert mux w. induction l as [|t l IH]; intros mux w Hmux (t0 & Hin & Hname).
  { by apply not_elem_of_nil in Hin. }
  cbn [go.fold_each]. unfold go.bind at 1 2 3, go.call.
  specialize (HNew t w) as Hok. destruct (main.lidarr_New t w) as [err w1]. cbn in Hok.
  subst err. cbn. unfold main.mux_Handle.
  destruct (bool_decide (("/triggers/" +:+ lidarr.Name t) ∈ mux)) eqn:Hdup; cbn.
  { by eexists. }
  apply bool_decide_eq_false in Hdup.
  apply elem_of_cons in Hin as [->|Hin].
  { destruct Hdup. by rewrite Hname. }
  destruct (IH ({[ "/triggers/" +:+ lidarr.Name t ]} ∪ mux) w1) as [pattern Hp];
    [apply elem_of_union; by right | by exists t0 |].
  unfold go.result, go.bind, go.emit, go.ret in *. cbn.
  destruct (go.fold_each l _ _ w1) as [[o w2] t2]. cbn in *. subst o. by eexists.
Qed.

(** X18: a lidarr trigger named [manual] claims the path of the manual
    trigger: when the triggers themselves initialise well, registering it a
    second time on the mux makes startup panic instead of logging a failure
    and exiting with code 1. *)
Theorem webhook_named_manual_panics c (mux : gset string) w :
  (∀ w', (main.manual_New (main.Manual (main.Triggers c)) w').1 = None) →
  (∀ t w', (main.lidarr_New t w').1 = None) →
  "/triggers/manual" ∉ mux →
  (∃ t, t ∈ main.Lidarr (main.Triggers c) ∧ lidarr.Name t = "manual") →
  ∃ pattern,
    go.result (main.register_http_triggers c mux w)
    = go.Panicked (go.MultipleRegistrations pattern).
Proof.
  intros Hmanual Hlidarr Hfresh Hclash. unfold main.register_http_triggers.
  unfold go.bind at 1 2 3, go.call.
  specialize (Hmanual w). destruct (main.manual_New _ w) as [err w1]. cbn in Hmanual.
  subst err. cbn. unfold main.mux_Handle at 1.
  rewrite bool_decide_eq_false_2 by done. cbn.
  destruct (lidarr_clash_panics (main.Lidarr (main.Triggers c))
              ({["/triggers/manual"]} ∪ mux) w1 Hlidarr) as [pattern Hp];
    [apply elem_of_union; left; by apply elem_of_singleton | done |].
  exists pattern. unfold go.result, go.bind in *.
  destruct (go.fold_each (main.Lidarr (main.Triggers c)) _ _ w1) as [[o w2] t2].
  cbn in *. by subst o.
Qed.

Lemma init_plex_targets_order (configs : list plex.Config) (acc targets : list main.Target)
    w w1 tr :
  main.init_plex_targets configs acc w = (go.Done targets, w1, tr) →
  ∃ ps, targets = acc ++ (main.PlexTarget <$> ps)
        ∧ plex.url <$> ps = plex.URL <$> configs
        ∧ plex.token <$> ps = plex.Token <$> configs.
Proof.
  unfold main.init_plex_targets.
  revert acc w tr. induction configs as [|c configs IH]; intros acc w tr.
  - cbn. intros [= <- _ _]. exists []. by rewrite app_nil_r.
  - cbn [go.fold_each]. unfold go.bind at 1 2 3.
    destruct (New_result c w) as (r & Hres & Hr).
    unfold go.result in Hres.
    destruct (plex.New c w) as [[o w0] t0]. cbn in Hres. subst o.
    destruct Hr as [(e & ->)|(t & -> & Hurl & Htoken & _)]; cbn; [done|].
    destruct (go.fold_each configs _ _ w0) as [[o w2] t2] eqn:Hrest.
    intros [= -> <- _].
    destruct (IH _ _ _ Hrest) as (ps & -> & Hurls & Htokens).
    exists (t :: ps). rewrite <- app_assoc. cbn. by rewrite Hurl, Htoken, Hurls, Htokens.
Qed.

Lemma init_emby_targets_order (configs : list emby.Config) (acc targets : list main.Target)
    w w1 tr :
  main.init_emby_targets configs acc w = (go.Done targets, w1, tr) →
  targets = acc ++ (main.EmbyTarget <$> configs).
Proof.
  unfold main.init_emby_targets.
  revert acc w tr. induction configs as [|c configs IH]; intros acc w tr.
  - cbn. intros [= <- _ _]. by rewrite app_nil_r.
  - cbn [go.fold_each]. unfold go.bind at 1 2 3, go.call.
    destruct (main.emby_New c w) as [[e|] w0]; cbn; [done|].
    destruct (go.fold_each configs _ _ w0) as [[o w2] t2] eqn:Hrest.
    intros [= -> <- _]. rewrite (IH _ _ _ Hrest), <- app_assoc. done.
Qed.

(** X19: when the targets initialise, the list handed to the processor holds
    one target for each configured entry: the plex targets first, then the
    emby targets, each group in the order of the file, every plex target
    with the URL and token of its entry. *)
Theorem init_targets_keeps_the_order_of_the_file c w targets w1 tr :
  main.init_targets c w = (go.Done targets, w1, tr) →
  ∃ ps, targets = (main.PlexTarget <$> ps)
                  ++ (main.EmbyTarget <$> main.Emby (main.Targets c))
        ∧ plex.url <$> ps = plex.URL <$> main.Plex (main.Targets c)
        ∧ plex.token <$> ps = plex.Token <$> main.Plex (main.Targets c)
        ∧ length targets
          = (length (main.Plex (main.Targets c)) + length (main.Emby (main.Targets c)))%nat.
Proof.
  unfold main.init_targets. unfold go.bind at 1.
  destruct (main.init_plex_targets _ [] w) as [[[ts| | |] w0] t0] eqn:Hplex; try done.
  destruct (init_plex_targets_order _ _ _ _ _ _ Hplex) as (ps & -> & Hurls & Htokens).
  unfold go.bind at 1.
  destruct (main.init_emby_targets _ _ w0) as [[[ts'| | |] w2] t2] eqn:Hemby; try done.
  rewrite (init_emby_targets_order _ _ _ _ _ _ Hemby). cbn.
  intros [= <- _ _]. exists ps. split_and!; try done.
  rewrite length_app, !length_fmap. f_equal.
  by rewrite <- (length_fmap plex.url), Hurls, length_fmap.
Qed.

End StartupOrder.

(** ** What [Scan] asks of rclone *)

Lemma length_drop (n : nat) (s : string) :
  String.length (strings.drop n s) = (String.length s - n)%nat.
Proof.
  revert s. induction n as [|n IH]; intros s; cbn.
  - lia.
  - destruct s as [|c s]; cbn; [done|apply IH].
Qed.

(** Cutting the end [s[i:]] off [s] leaves [s[:i]]. *)
Lemma TrimSuffix_drop (s : string) (i : nat) :
  (i ≤ String.length s)%nat →
  strings.TrimSuffix s (strings.drop i s) = strings.take i s.
Proof.
  intros Hi. unfold strings.TrimSuffix, strings.HasSuffix.
  rewrite length_drop.
  replace (String.length s - (String.length s - i))%nat with i by lia.
  rewrite String.eqb_refl.
  replace (String.length s - i <=? String.length s)%nat with true
    by (symmetry; apply Nat.leb_le; lia).
  done.
Qed.

Lemma posts_app (t1 t2 : list event) :
  runs.posts (t1 ++ t2) = runs.posts t1 ++ runs.posts t2.
Proof. induction t1 as [|e t1 IH]; [done|]. destruct e; cbn; by rewrite ?IH. Qed.

Section Refresh.
Context {W : Type} {rt : plex.Runtime W}.
Implicit Types (t : plex.target) (scan : autoscan.Scan) (w : W).

Lemma trace_bind_done {A B} (m : go.M W A) (k : A → go.M W B) w a w1 (tr : list event) :
  m w = (go.Done a, w1, tr) →
  go.trace (go.bind m k w) = tr ++ go.trace (k a w1).
Proof. intros H. by rewrite (bind_done _ _ _ _ _ _ H). Qed.

Lemma trace_bind_prefix {A B} (m : go.M W A) (k : A → go.M W B) w :
  ∃ rest, go.trace (go.bind m k w) = go.trace (m w) ++ rest.
Proof.
  unfold go.bind, go.trace. destruct (m w) as [[[a| | |] w1] tr1]; cbn;
    try (exists []; by rewrite app_nil_r).
  destruct (k a w1) as [[o w2] tr2]. by exists tr2.
Qed.

Lemma rcrefresh_answered (Data : gmap string string) (url : string) w resp w1 :
  plex.http_Do url (plex.json_Marshal Data) w = (inl resp, w1) →
  plex.rcrefresh Data url w
  = (go.Done (plex.Body resp), w1,
     [Println ["Json String"; plex.json_Marshal Data];
      HTTPPost url (plex.json_Marshal Data);
      Println ["response Status:"; plex.Status resp];
      Println ["response Headers:"; plex.Header resp];
      Println ["response Body:"; plex.Body resp]]).
Proof.
  intros Hdo. unfold plex.rcrefresh, go.bind, go.emit, go.call, go.ret.
  by rewrite Hdo.
Qed.

Lemma rcrefresh_posts (Data : gmap string string) (url : string) w :
  runs.posts (go.trace (plex.rcrefresh Data url w)) = [(url, plex.json_Marshal Data)].
Proof.
  unfold plex.rcrefresh, go.bind, go.emit, go.call, go.ret, go.panic, go.trace.
  by destruct (plex.http_Do url (plex.json_Marshal Data) w) as [[resp|err] w1].
Qed.

(** X8: when the first rclone endpoint answers that the file does not
    exist, the next thing [Scan] asks of it is to refresh the parent
    directory, without recursion: after the recursive request for the
    trimmed folder [s] to both endpoints comes a request for [s] cut at its
    last slash. *)
Theorem Scan_refreshes_the_parent_of_a_missing_folder t scan w resp w1 resp' w2 :
  let scanFolder := plex.rewrite t (autoscan.Folder scan) in
  let s := strings.TrimPrefix scanFolder "/mnt/unionfs/Media" in
  let parent := strings.take (Z.to_nat (strings.LastIndex s "/")) s in
  let first : gmap string string := {[ "recursive" := "true"; "dir" := s ]} in
  let second : gmap string string := {[ "recursive" := "false"; "dir" := parent ]} in
  (∃ l, l ∈ plex.libraries t ∧ strings.HasPrefix scanFolder (plex.Path l) = true) →
  0 ≤ strings.LastIndex s "/" →
  plex.http_Do plex.refresh_url (plex.json_Marshal first) w = (inl resp, w1) →
  plex.http_Do plex.refresh_url2 (plex.json_Marshal first) w1 = (inl resp', w2) →
  strings.Contains (plex.Body resp) "file does not exist" = true →
  ∃ later,
    runs.posts (go.trace (plex.Scan t scan w))
    = [(plex.refresh_url, plex.json_Marshal first);
       (plex.refresh_url2, plex.json_Marshal first);
       (plex.refresh_url, plex.json_Marshal second)] ++ later.
Proof.
  intros scanFolder s parent first second Hlib Hslash Hdo1 Hdo2 Hmissing.
  apply getScanLibrary_some in Hlib as [libs Hlibs].
  unfold plex.Scan. fold scanFolder. rewrite Hlibs.
  destruct (trace_bind_prefix (plex.refresh scanFolder)
              (λ _, plex.send_scan_requests t scanFolder libs) w) as [rest0 ->].
  rewrite posts_app.
  enough (∃ later, runs.posts (go.trace (plex.refresh scanFolder w))
                   = [(plex.refresh_url, plex.json_Marshal first);
                      (plex.refresh_url2, plex.json_Marshal first);
                      (plex.refresh_url, plex.json_Marshal second)] ++ later)
    as [later ->] by (eexists; by rewrite <- app_assoc).
  unfold plex.refresh. fold s. unfold go.slice_from.
  pose proof (LastIndex_le_len s "/") as Hle.
  replace ((strings.LastIndex s "/" <? 0) || (strings.len s <? strings.LastIndex s "/"))
    with false by (symmetry; apply orb_false_iff; split; apply Z.ltb_ge; lia).
  erewrite trace_bind_done by reflexivity.
  erewrite trace_bind_done by reflexivity.
  cbn beta. rewrite TrimSuffix_drop by (unfold strings.len in Hle; lia).
  fold parent. fold first.
  erewrite trace_bind_done by reflexivity.
  erewrite trace_bind_done by (by apply rcrefresh_answered).
  erewrite trace_bind_done by (by apply rcrefresh_answered).
  rewrite Hmissing. fold second.
  match goal with
  | |- context [go.trace (go.bind (plex.rcrefresh ?D ?u) ?k ?w0)] =>
      destruct (trace_bind_prefix (plex.rcrefresh D u) k w0) as [rest ->]
  end.
  rewrite !posts_app, rcrefresh_posts. cbn. by eexists.
Qed.

End Refresh.

Lemma posts_none (t : list event) :
  Forall (λ e, runs.is_HTTPPost e = false) t → runs.posts t = [].
Proof. induction 1 as [|e t He _ IH]; [done|]. by destruct e. Qed.

Section RefreshOnce.
Context {W : Type} {rt : plex.Runtime W}.
Implicit Types (t : plex.target) (scan : autoscan.Scan) (w : W).

(** X20: when the first rclone endpoint knows the folder (its answer does not
    say "file does not exist"), [Scan] sends rclone two requests and no more,
    the recursive refresh of the trimmed folder to each endpoint, and then
    goes on to the scan requests, whose outcome is its own. *)
Theorem Scan_refreshes_a_known_folder_once t scan w resp w1 resp' w2 :
  let scanFolder := plex.rewrite t (autoscan.Folder scan) in
  let s := strings.TrimPrefix scanFolder "/mnt/unionfs/Media" in
  let first : gmap string string := {[ "recursive" := "true"; "dir" := s ]} in
  (∃ l, l ∈ plex.libraries t ∧ strings.HasPrefix scanFolder (plex.Path l) = true) →
  0 ≤ strings.LastIndex s "/" →
  plex.http_Do plex.refresh_url (plex.json_Marshal first) w = (inl resp, w1) →
  plex.http_Do plex.refresh_url2 (plex.json_Marshal first) w1 = (inl resp', w2) →
  strings.Contains (plex.Body resp) "file does not exist" = false →
  runs.posts (go.trace (plex.Scan t scan w))
  = [(plex.refresh_url, plex.json_Marshal first);
     (plex.refresh_url2, plex.json_Marshal first)]
  ∧ go.result (plex.Scan t scan w)
    = go.result (plex.send_scan_requests t scanFolder
                   (plex.getScanLibrary t scanFolder).1 w2).
Proof.
  intros scanFolder s first Hlib Hslash Hdo1 Hdo2 Hknown.
  apply getScanLibrary_some in Hlib as [libs Hlibs].
  assert (plex.refresh scanFolder w
          = (go.Done tt, w2,
             [Println ["Trimmed String:"; s];
              Println ["Base Dir Trim:";
                       strings.TrimSuffix s
                         (strings.drop (Z.to_nat (strings.LastIndex s "/")) s)];
              Println ["Json String"; plex.json_Marshal first];
              HTTPPost plex.refresh_url (plex.json_Marshal first);
              Println ["response Status:"; plex.Status resp];
              Println ["response Headers:"; plex.Header resp];
              Println ["response Body:"; plex.Body resp];
              Println ["Json String"; plex.json_Marshal first];
              HTTPPost plex.refresh_url2 (plex.json_Marshal first);
              Println ["response Status:"; plex.Status resp'];
              Println ["response Headers:"; plex.Header resp'];
              Println ["response Body:"; plex.Body resp']])) as Hrefresh.
  { unfold plex.refresh. fold s. unfold go.slice_from.
    pose proof (LastIndex_le_len s "/") as Hle.
    replace ((strings.LastIndex s "/" <? 0) || (strings.len s <? strings.LastIndex s "/"))
      with false by (symmetry; apply orb_false_iff; split; apply Z.ltb_ge; lia).
    fold first.
    unfold go.bind at 1 2 3 4 5. unfold go.emit, go.ret. cbn [fst snd].
    rewrite (rcrefresh_answered first plex.refresh_url w resp w1 Hdo1).
    rewrite (rcrefresh_answered first plex.refresh_url2 w1 resp' w2 Hdo2).
    by rewrite Hknown. }
  unfold plex.Scan. fold scanFolder. rewrite Hlibs. cbn [fst].
  assert (∀ ls, go.emits_only (λ e, runs.is_HTTPPost e = false)
                  (plex.send_scan_requests t scanFolder ls)) as Hsend.
  { induction ls as [|lib ls IH]; cbn [plex.send_scan_requests].
    - apply emits_only_ret.
    - repeat emits_only_step; done. }
  specialize (Hsend libs w2). apply posts_none in Hsend.
  unfold go.bind, go.result, go.trace in *. rewrite Hrefresh.
  destruct (plex.send_scan_requests t scanFolder libs w2) as [[o w3] tr3]. cbn in *.
  split; [|done].
  change (runs.posts
            ([Println ["Trimmed String:"; s];
              Println ["Base Dir Trim:";
                       strings.TrimSuffix s
                         (strings.drop (Z.to_nat (strings.LastIndex s "/")) s)];
              Println ["Json String"; plex.json_Marshal first]]
             ++ HTTPPost plex.refresh_url (plex.json_Marshal first)
             :: [Println ["response Status:"; plex.Status resp];
                 Println ["response Headers:"; plex.Header resp];
                 Println ["response Body:"; plex.Body resp];
                 Println ["Json String"; plex.json_Marshal first]]
             ++ HTTPPost plex.refresh_url2 (plex.json_Marshal first)
             :: [Println ["response Status:"; plex.Status resp'];
                 Println ["response Headers:"; plex.Header resp'];
                 Println ["response Body:"; plex.Body resp']] ++ tr3)
          = [(plex.refresh_url, plex.json_Marshal first);
             (plex.refresh_url2, plex.json_Marshal first)]).
  cbn. by rewrite Hsend.
Qed.

End RefreshOnce.

Local Set Warnings "-clear-no-such-hyp".

Section TriggerPaths.
Context {W : Type} {rt : main.Runtime W}.
Implicit Types (c : main.config) (w : W) (mux : gset string).

(** The loop that registers the webhooks of one kind: when it returns, the
    paths it registered were free and are distinct, and the mux holds them
    besides what it held. *)
Lemma webhook_loop_paths {T} (New : T → W → option error * W) (fn : string)
    (name : T → string) (l : list T) mux w mux' w1 tr :
  go.fold_each l mux (λ mux t,
    err <- go.call (Call fn) (New t) ;;
    main.fatal_if err [zerolog.Str "trigger" (name t)] "Failed initialising trigger" ;;
    main.mux_Handle mux ("/triggers/" +:+ name t)) w
  = (go.Done mux', w1, tr) →
  let paths := (λ t, "/triggers/" +:+ name t) <$> l in
  NoDup paths ∧ (∀ p, p ∈ paths → p ∉ mux) ∧ mux' = list_to_set paths ∪ mux.
Proof.
  revert mux w tr. induction l as [|t l IH]; intros mux w tr.
  - cbn. intros [= <- _ _]. split_and!; [constructor|by intros ? ?%not_elem_of_nil|set_solver].
  - cbn [go.fold_each]. unfold go.bind at 1 2 3, go.call.
    destruct (New t w) as [[e|] w0]; cbn; [done|].
    unfold main.mux_Handle at 1.
    destruct (bool_decide (("/triggers/" +:+ name t) ∈ mux)) eqn:Hdup; cbn; [done|].
    apply bool_decide_eq_false in Hdup.
    destruct (go.fold_each l _ _ w0) as [[o w2] tr2] eqn:Hrest. cbn.
    intros [= -> <- _].
    destruct (IH _ _ _ Hrest) as (Hnodup & Hfree & ->). cbn.
    split_and!.
    + constructor; [|done]. intros Hin. apply (Hfree _ Hin). set_solver.
    + intros p [->|Hin]%elem_of_cons; [done|].
      intros Hp. apply (Hfree _ Hin). set_solver.
    + set_solver.
Qed.

(** X21: when the HTTP triggers are all registered, no two of them share a
    path: the paths of the manual trigger and of the lidarr, radarr and
    sonarr webhooks are distinct from one another and were free on the mux,
    which now holds them all. *)
Theorem registered_triggers_have_distinct_paths c mux w mux' w1 tr :
  main.register_http_triggers c mux w = (go.Done mux', w1, tr) →
  let paths :=
    "/triggers/manual"
    :: ((λ t, "/triggers/" +:+ lidarr.Name t) <$> main.Lidarr (main.Triggers c))
    ++ ((λ t, "/triggers/" +:+ radarr.Name t) <$> main.Radarr (main.Triggers c))
    ++ ((λ t, "/triggers/" +:+ sonarr.Name t) <$> main.Sonarr (main.Triggers c)) in
  NoDup paths ∧ (∀ p, p ∈ paths → p ∉ mux) ∧ mux' = list_to_set paths ∪ mux.
Proof.
  unfold main.register_http_triggers. unfold go.bind at 1 2 3, go.call.
  destruct (main.manual_New _ w) as [[e|] w0]; cbn; [done|].
  unfold main.mux_Handle at 1.
  destruct (bool_decide ("/triggers/manual" ∈ mux)) eqn:Hdup; cbn; [done|].
  apply bool_decide_eq_false in Hdup.
  unfold go.bind at 1.
  destruct (go.fold_each (main.Lidarr (main.Triggers c)) _ _ w0)
    as [[[m1| | |] w2] tr2] eqn:Hl; try done.
  unfold go.bind at 1.
  destruct (go.fold_each (main.Radarr (main.Triggers c)) _ _ w2)
    as [[[m2| | |] w3] tr3] eqn:Hr; try done.
  destruct (go.fold_each (main.Sonarr (main.Triggers c)) _ _ w3)
    as [[o w4] tr4] eqn:Hs.
  cbn. intros [= -> <- _].
  destruct (webhook_loop_paths _ _ _ _ _ _ _ _ _ Hl) as (Hn1 & Hf1 & ->).
  destruct (webhook_loop_paths _ _ _ _ _ _ _ _ _ Hr) as (Hn2 & Hf2 & ->).
  destruct (webhook_loop_paths _ _ _ _ _ _ _ _ _ Hs) as (Hn3 & Hf3 & ->).
  cbn zeta. split_and!.
  - constructor.
    + rewrite !elem_of_app. intros [Hin|[Hin|Hin]].
      * apply (Hf1 _ Hin). set_solver.
      * apply (Hf2 _ Hin). set_solver.
      * apply (Hf3 _ Hin). set_solver.
    + apply NoDup_app. split_and!; [done| |].
      * intros p Hin1. rewrite elem_of_app. intros [Hin|Hin].
        -- apply (Hf2 _ Hin). set_solver.
        -- apply (Hf3 _ Hin). set_solver.
      * apply NoDup_app. split_and!; [done| |done].
        intros p Hin2 Hin. apply (Hf3 _ Hin). set_solver.
  - intros p [->|Hin]%elem_of_cons; [done|].
    rewrite !elem_of_app in Hin. destruct Hin as [Hin|[Hin|Hin]]; intros Hp.
    + apply (Hf1 _ Hin). set_solver.
    + apply (Hf2 _ Hin). set_solver.
    + apply (Hf3 _ Hin). set_solver.
  - cbn [list_to_set]. rewrite !list_to_set_app_L. set_solver.
Qed.

End TriggerPaths.

(* ================================================================== *)
(** * The properties at work in the concrete world *)
(* ================================================================== *)

#[local] Existing Instance example.plex_runtime.
#[local] Existing Instance example.main_runtime.

Lemma Scan_disclaims_with_nil_witness :
  plex.Scan example.the_target example.stray_scan example.calm
  = (go.Done None, example.calm,
     [Log zerolog.WarnLevel
          [zerolog.Err (Opaque "/media/Music/Y: failed determining libraries")]
          "No target libraries found"]).
Proof.
  apply (Scan_disclaims_with_nil (W:=example.world) example.the_target example.stray_scan).
  intros l Hl. apply list_elem_of_singleton in Hl as ->. reflexivity.
Defined.

Lemma Scan_panics_when_refresh_fails_witness :
  go.result (plex.Scan example.the_target example.the_scan example.cut_off)
  = go.Panicked (go.PanicError example.unreachable).
Proof.
  destruct (Scan_panics_when_refresh_fails (W:=example.world)
              example.the_target example.the_scan example.cut_off
              example.unreachable example.calm) as (_ & Hpanic & _).
  - exists example.movies. split; [by left | reflexivity].
  - reflexivity.
  - apply Hpanic. vm_compute. discriminate.
Defined.

(** C5, as the claim states it, fails: the row handed to [Scan] holds the
    folder as it was stored, [/downloads/Movies/X], to which the target's
    rule has not been applied; the rule is applied inside [Scan], and the
    request names [/media/Movies/X]. *)
Lemma Scan_rewrites_after_storing :
  autoscan.Folder example.the_scan = "/downloads/Movies/X"
  ∧ APIScan "http://plex:32400" "/media/Movies/X" 1
      ∈ go.trace (plex.Scan example.the_target example.the_scan example.calm)
  ∧ "/media/Movies/X" ≠ autoscan.Folder example.the_scan.
Proof.
  split_and!; [reflexivity | | discriminate].
  vm_compute. repeat first [apply list_elem_of_here | apply list_elem_of_further].
Qed.

Lemma Scan_requests_name_rewritten_folder_witness :
  "/media/Movies/X" = plex.rewrite example.the_target (autoscan.Folder example.the_scan).
Proof.
  apply (Scan_requests_name_rewritten_folder (W:=example.world)
           example.the_target example.the_scan example.calm "http://plex:32400" _ 1).
  vm_compute. repeat first [apply list_elem_of_here | apply list_elem_of_further].
Defined.

(** C6 fails on the code: with a lidarr webhook configured and no user name
    or password set, the condition of lines 187-188, which counts radarr and
    sonarr triggers only, is false; the webhook is registered and no warning
    is logged. *)
Theorem lidarr_webhook_without_warning :
  main.Username (main.Auth example.lidarr_only) = ""
  ∧ main.Lidarr (main.Triggers example.lidarr_only) = [lidarr.mkConfig "lidarr" ""]
  ∧ main.webhooks_without_authentication example.lidarr_only = false
  ∧ Handle "/triggers/lidarr"
      ∈ go.trace (main.start example.the_cli example.lidarr_only 0 example.calm)
  ∧ existsb main.is_warning
      (go.trace (main.start example.the_cli example.lidarr_only 0 example.calm)) = false.
Proof.
  split_and!; try reflexivity.
  vm_compute. repeat first [apply list_elem_of_here | apply list_elem_of_further].
Qed.



Lemma unavailable_target_is_reprobed_witness :
  go.result (main.iteration main.default_config [] true example.target_down) = go.Done false
  ∧ main.reprobed false
      (go.trace (main.loop 4 main.default_config [] true example.target_down)) = true.
Proof.
  destruct (unavailable_target_is_reprobed (rt:=example.main_runtime) main.default_config [])
    as (Hpass & _ & _ & Hloop).
  split.
  - by rewrite (Hpass example.target_down example.down _ eq_refl eq_refl eq_refl eq_refl).
  - apply Hloop.
Defined.

(** C3, as the claim states it, fails: an error from [Process] that matches
    [ErrTargetUnavailable] and [ErrNoScans] is handled as "no scans".
    [targetsAvailable] stays true and the next pass calls [Process] with no
    [CheckAvailability] in between. *)
Lemma unavailable_target_behind_no_scans :
  errors.Is example.idle_and_down autoscan.ErrTargetUnavailable = true
  ∧ main.loop 2 main.default_config [] true example.mixed_down
    = (go.Done true, example.calm,
       [Process (Some example.idle_and_down);
        Log zerolog.TraceLevel [] "No scans are available, retrying in 15 seconds...";
        Sleep (15 * time.Second);
        Process None;
        Sleep (5 * time.Second)]).
Proof. split; reflexivity. Qed.

Lemma unclassified_error_aborts_witness :
  go.result (main.loop 2 main.default_config [] true example.store_locked) = go.Exited 1.
Proof.
  destruct (unclassified_error_aborts (rt:=example.main_runtime) main.default_config []
              example.store_locked example.locked example.calm
              eq_refl eq_refl eq_refl eq_refl eq_refl)
    as (_ & Hloop & _).
  by rewrite Hloop.
Defined.

Lemma unsupported_version_aborts_startup_witness :
  go.result (main.init_plex_targets [example.the_plex] [] example.old_server) = go.Exited 1.
Proof.
  destruct (unsupported_version_aborts_startup (rt:=example.main_runtime)
              example.the_plex example.old_server "1.19.5" example.old_server
              (autoscan.prefix_rewriter []) eq_refl eq_refl eq_refl)
    as (_ & Hloop & _).
  apply (Hloop [] [] [] [] example.old_server []). reflexivity.
Defined.



(** The monitor is no formality: a [Process] right after an unavailable
    target is refused, one after a probe that returned nil is accepted. *)
Example reprobed_refuses_unprobed_pass :
  main.reprobed false [Process (Some example.down); Process None] = false
  ∧ main.reprobed false
      [Process (Some example.down); CheckAvailability None; Process None] = true.
Proof. split; reflexivity. Qed.

(** ** The further properties at work *)

Lemma isSupportedVersion_ignores_later_parts_witness :
  plex.isSupportedVersion "1.20.3.4567-abc" = plex.isSupportedVersion "1.20".
Proof.
  apply (isSupportedVersion_ignores_later_parts "1.20" "3.4567-abc").
  vm_compute. lia.
Defined.

Lemma isSupportedVersion_accepts_overflowing_major_witness :
  plex.isSupportedVersion "99999999999999999999.0" = true.
Proof.
  destruct (isSupportedVersion_accepts_overflowing_major
              "99999999999999999999.0" "99999999999999999999" "0" [] eq_refl eq_refl)
    as [_ Hsupported]; [|done].
  vm_compute. discriminate.
Defined.

Lemma New_lists_libraries_of_supported_servers_only_witness :
  ∃ version w1,
    plex.api_Version (plex.newAPIClient "http://plex:32400" "token") example.calm
    = ((version, None), w1)
    ∧ plex.isSupportedVersion version = true.
Proof.
  apply (New_lists_libraries_of_supported_servers_only (rt:=example.plex_runtime)
           example.the_plex example.calm "http://plex:32400").
  vm_compute. repeat first [apply list_elem_of_here | apply list_elem_of_further].
Defined.

Lemma getScanLibrary_selects_by_prefix_witness :
  example.movies ∈ (plex.getScanLibrary example.the_target "/media/Movies/X").1.
Proof.
  apply (proj1 (getScanLibrary_selects_by_prefix example.the_target "/media/Movies/X")).
  split; [by left | reflexivity].
Defined.

Lemma Scan_panics_on_folder_without_slash_witness :
  plex.Scan cases.root_target cases.root_scan example.calm
  = (go.Panicked (go.SliceBounds (-1)), example.calm, [Println ["Trimmed String:"; ""]]).
Proof.
  apply (Scan_panics_on_folder_without_slash (rt:=example.plex_runtime)
           cases.root_target cases.root_scan example.calm).
  - exists cases.media_root. split; [by left | reflexivity].
  - reflexivity.
Defined.

Lemma Scan_sends_one_request_per_library_witness :
  runs.scan_requests
    (go.trace (plex.Scan example.the_target example.the_scan example.calm))
  = [("http://plex:32400", "/media/Movies/X", 1)].
Proof.
  apply (proj2 (Scan_sends_one_request_per_library (rt:=example.plex_runtime)
                  example.the_target example.the_scan example.calm)).
  reflexivity.
Defined.

Lemma Scan_returns_errors_of_the_API_only_witness :
  ∃ lib w0 w1,
    lib ∈ plex.libraries flaky.the_target
    ∧ strings.HasPrefix
        (plex.rewrite flaky.the_target (autoscan.Folder example.the_scan))
        (plex.Path lib) = true
    ∧ plex.api_Scan (Runtime:=flaky.plex_runtime) (plex.api flaky.the_target)
        (plex.rewrite flaky.the_target (autoscan.Folder example.the_scan))
        (plex.ID lib) w0
      = (Some flaky.busy, w1).
Proof.
  apply (Scan_returns_errors_of_the_API_only (rt:=flaky.plex_runtime)
           flaky.the_target example.the_scan example.calm flaky.busy).
  reflexivity.
Defined.

Lemma targetsAvailable_follows_the_targets_witness :
  ∃ e, Process (Some e)
         ∈ go.trace (main.iteration main.default_config [] true example.target_down)
       ∧ errors.Is e autoscan.ErrTargetUnavailable = true.
Proof.
  destruct (targetsAvailable_follows_the_targets (rt:=example.main_runtime)
              main.default_config [] true example.target_down false eq_refl)
    as [_ Hcleared].
  by apply Hcleared.
Defined.

Lemma no_warning_without_its_condition_witness :
  existsb main.is_warning
    (go.trace (main.start example.the_cli main.default_config 0 example.calm)) = false.
Proof.
  apply (no_warning_without_its_condition (rt:=example.main_runtime)). reflexivity.
Defined.

Lemma main_exit_codes_witness :
  (1 = 0 ∧ ∃ w1, main.kong_Parse example.misspelt = (main.VersionFlag, w1))
  ∨ (∃ w1, main.kong_Parse example.misspelt = (main.ParseExit 1, w1))
  ∨ 1 = 1.
Proof.
  apply (main_exit_codes (rt:=example.main_runtime) 1 example.misspelt 1). reflexivity.
Defined.

Lemma webhook_named_manual_panics_witness :
  ∃ pattern,
    go.result (main.register_http_triggers cases.clash ∅ example.calm)
    = go.Panicked (go.MultipleRegistrations pattern).
Proof.
  apply (webhook_named_manual_panics (rt:=example.main_runtime) cases.clash ∅ example.calm).
  - done.
  - done.
  - apply not_elem_of_empty.
  - exists (lidarr.mkConfig "manual" ""). split; [|done]. right. by left.
Defined.

Lemma init_targets_keeps_the_order_of_the_file_witness :
  ∃ ps, (main.init_targets cases.two_targets example.calm).1.1
        = go.Done ((main.PlexTarget <$> ps) ++ [main.EmbyTarget (emby.mkConfig "http://emby:8096")])
        ∧ plex.url <$> ps = ["http://plex:32400"].
Proof.
  destruct (main.init_targets cases.two_targets example.calm) as [[o w1] tr] eqn:Hrun.
  assert (o = go.Done [main.PlexTarget
                         (plex.mkTarget "http://plex:32400" "token" [example.movies]
                            (autoscan.prefix_rewriter [])
                            (plex.newAPIClient "http://plex:32400" "token"));
                       main.EmbyTarget (emby.mkConfig "http://emby:8096")]) as ->
    by (by vm_compute in Hrun; injection Hrun as <- _ _).
  destruct (init_targets_keeps_the_order_of_the_file (rt:=example.main_runtime)
              cases.two_targets example.calm _ w1 tr Hrun) as (ps & Hts & Hurls & _).
  exists ps. split; [by rewrite Hts | done].
Defined.

Lemma Scan_refreshes_the_parent_of_a_missing_folder_witness :
  ∃ later,
    runs.posts (go.trace (plex.Scan example.the_target example.the_scan cases.new_folder))
    = [(plex.refresh_url, "recursive=true;dir=/media/Movies/X;");
       (plex.refresh_url2, "recursive=true;dir=/media/Movies/X;");
       (plex.refresh_url, "recursive=false;dir=/media/Movies;")] ++ later.
Proof.
  apply (Scan_refreshes_the_parent_of_a_missing_folder (rt:=example.plex_runtime)
           example.the_target example.the_scan cases.new_folder
           cases.not_there example.calm example.ok_response example.calm).
  - exists example.movies. split; [by left | reflexivity].
  - vm_compute. discriminate.
  - reflexivity.
  - reflexivity.
  - reflexivity.
Defined.

Lemma Scan_refreshes_a_known_folder_once_witness :
  runs.posts (go.trace (plex.Scan example.the_target example.the_scan example.calm))
  = [(plex.refresh_url, "recursive=true;dir=/media/Movies/X;");
     (plex.refresh_url2, "recursive=true;dir=/media/Movies/X;")].
Proof.
  assert (∃ l, l ∈ plex.libraries example.the_target
               ∧ strings.HasPrefix "/media/Movies/X" (plex.Path l) = true) as Hlib
    by (exists example.movies; split; [by left | reflexivity]).
  assert (0 ≤ strings.LastIndex "/media/Movies/X" "/") as Hslash
    by (vm_compute; discriminate).
  exact (proj1 (Scan_refreshes_a_known_folder_once (rt:=example.plex_runtime)
                  example.the_target example.the_scan example.calm
                  example.ok_response example.calm example.ok_response example.calm
                  Hlib Hslash eq_refl eq_refl eq_refl)).
Defined.

Lemma registered_triggers_have_distinct_paths_witness :
  NoDup ["/triggers/manual"; "/triggers/lidarr"].
Proof.
  destruct (main.register_http_triggers example.lidarr_only ∅ example.calm)
    as [[[mux'| | |] w1] tr] eqn:Hrun;
    try (exfalso; vm_compute in Hrun; discriminate).
  destruct (registered_triggers_have_distinct_paths (rt:=example.main_runtime)
              example.lidarr_only ∅ example.calm mux' w1 tr Hrun) as (Hnodup & _).
  exact Hnodup.
Defined.
